(** * Reservation store and calendar gestures of res_appartement

    A shallow embedding of the [useReservations] hook (conflict detection,
    create / update / delete with persistence) and of the two gesture
    machines of [CalendarView] (two-click range selection, drag-reschedule),
    followed by the properties the specification states about them.

    Sources.  The hook is the module App imports as [hooks/useReservations].
    [components/CalendarView.tsx] holds two revisions of the component; the
    embedding follows the later one, the one App wires with
    [onReservationUpdate] and [checkConflict].  Its [DragState] type and the
    [clientName] field of a reservation are read off their uses.

    Representation choices.
    - A calendar-day string ['yyyy-MM-dd'] is represented by its day number
      (days since 1970-01-01, see [daysFromCivil]).  On such strings
      [parseISO] and [format (_, 'yyyy-MM-dd')] are inverse and monotone, so
      both are the identity on [Day]; [differenceInDays] and [addDays] on
      local midnights are subtraction and addition of day numbers.  Strings
      that are not calendar days are outside the model.
    - A JavaScript exception is an explicit [Throw] completion.
    - React state is an explicit record; one handler call maps the state of
      the current render to the state of the next one.
    - [localStorage.setItem] may fail (quota); whether it does is an input
      of every mutation, and so is the reading of the clock.
    - date-fns is an npm dependency and no manifest fixes its release:
      [isWithinInterval] throws [RangeError] on an interval whose start is
      after its end in 2.x and sorts the two endpoints from 3.0 on.  The
      release is therefore a parameter ([IntervalPolicy]) of everything that
      calls it, and every property is settled for both. *)

From Stdlib Require Import ZArith List String Bool Lia Permutation Sorted.
From Stdlib Require Import DecimalString DecimalN.
Import ListNotations.
Open Scope string_scope.
Open Scope Z_scope.

(** ** Completions *)

Inductive Exn : Type :=
| Error (message : string)
| RangeError (message : string)
| DOMException (message : string).

Inductive completion (A : Type) : Type :=
| Normal (a : A)
| Throw (e : Exn).
Arguments Normal {A} a.
Arguments Throw {A} e.

Definition bind {A B} (c : completion A) (k : A -> completion B) : completion B :=
  match c with
  | Normal a => k a
  | Throw e => Throw e
  end.

Notation "x <- c ;; k" := (bind c (fun x => k))
  (at level 61, c at next level, right associativity).

(** JavaScript [a || b] on booleans: [b] is evaluated only when [a] is false. *)
Definition orElse (a b : completion bool) : completion bool :=
  x <- a ;; if x then Normal true else b.

(** [Array.prototype.some] with a callback that may throw. *)
Fixpoint some {A} (f : A -> completion bool) (l : list A) : completion bool :=
  match l with
  | [] => Normal false
  | x :: t => b <- f x ;; if b then Normal true else some f t
  end.

(** [Array.prototype.find]. *)
Definition find {A} (f : A -> bool) (l : list A) : option A := List.find f l.

(** ** date-fns *)

Definition Day := Z.

(** Day number of the civil date [y]-[m]-[d] (proleptic Gregorian calendar). *)
Definition daysFromCivil (y m d : Z) : Day :=
  let y' := if m <=? 2 then y - 1 else y in
  let era := y' / 400 in
  let yoe := y' - era * 400 in
  let doy := (153 * (if 2 <? m then m - 3 else m + 9) + 2) / 5 + d - 1 in
  let doe := yoe * 365 + yoe / 4 - yoe / 100 + doy in
  era * 146097 + doe - 719468.

Definition parseISO (s : Day) : Day := s.
Definition format (d : Day) : Day := d.
Definition differenceInDays (dateLeft dateRight : Day) : Z := dateLeft - dateRight.
Definition addDays (date : Day) (amount : Z) : Day := date + amount.

Inductive IntervalPolicy : Type :=
| RejectInverted   (* date-fns 2.x *)
| SortEndpoints.   (* date-fns 3.x, 4.x *)

Definition isWithinInterval (policy : IntervalPolicy)
    (date : Day) (start end_ : Day) : completion bool :=
  match policy with
  | RejectInverted =>
      if start <=? end_
      then Normal ((start <=? date) && (date <=? end_))
      else Throw (RangeError "Invalid interval")
  | SortEndpoints =>
      let startTime := Z.min start end_ in
      let endTime := Z.max start end_ in
      Normal ((startTime <=? date) && (date <=? endTime))
  end.

(** ** types/reservation.ts *)

(** [Omit<Reservation, 'id'>]. *)
Record ReservationDraft : Type := mkDraft {
  apartment : string;
  clientName : option string;
  startDate : Day;
  endDate : Day;
  notes : option string;
  color : option string
}.

(** [Reservation]; a reservation is accepted wherever a draft is expected. *)
Record Reservation : Type := mkReservation {
  id : string;
  fields :> ReservationDraft
}.

Module Apartment.
Record t : Type := mk {
  id : string;
  name : string;
  color : string
}.
End Apartment.

(** [Partial<Omit<Reservation, 'id'>>]: [None] is an absent key. *)
Module Updates.
Record t : Type := mk {
  apartment : option string;
  clientName : option string;
  startDate : option Day;
  endDate : option Day;
  notes : option string;
  color : option string
}.
Definition empty : t := mk None None None None None None.
End Updates.

Definition overlay {A} (old : A) (new : option A) : A :=
  match new with
  | Some v => v
  | None => old
  end.

(** [{ ...existing, ...updates }]. *)
Definition spread (existing : Reservation) (updates : Updates.t) : Reservation :=
  {| id := id existing;
     fields :=
       {| apartment := overlay (apartment existing) (Updates.apartment updates);
          clientName := match Updates.clientName updates with
                        | Some n => Some n
                        | None => clientName existing
                        end;
          startDate := overlay (startDate existing) (Updates.startDate updates);
          endDate := overlay (endDate existing) (Updates.endDate updates);
          notes := match Updates.notes updates with
                   | Some n => Some n
                   | None => notes existing
                   end;
          color := match Updates.color updates with
                   | Some c => Some c
                   | None => color existing
                   end |} |}.

Definition withColor (r : ReservationDraft) (c : string) : ReservationDraft :=
  {| apartment := apartment r; clientName := clientName r;
     startDate := startDate r; endDate := endDate r;
     notes := notes r; color := Some c |}.

(** ** hooks/useReservations *)

Definition conflictMessage : string :=
  "Cette période est déjà réservée pour cet appartement".
Definition notFoundMessage : string := "Réservation introuvable".
Definition saveErrorState : string := "Erreur lors de la sauvegarde".
Definition saveErrorMessage : string := "Impossible de sauvegarder les données".
Definition fallbackColor : string := "#6B7280".

Definition defaultApartments : list Apartment.t :=
  [ Apartment.mk "1" "Appartement A" "#3B82F6";
    Apartment.mk "2" "Appartement B" "#10B981";
    Apartment.mk "3" "Appartement C" "#F59E0B";
    Apartment.mk "4" "Appartement D" "#EF4444";
    Apartment.mk "5" "Appartement E" "#8B5CF6" ].

Definition defaultReservations : list Reservation :=
  [ mkReservation "1"
      (mkDraft "Appartement A" None (daysFromCivil 2025 1 15) (daysFromCivil 2025 1 20)
         (Some "Famille Martin") (Some "#3B82F6"));
    mkReservation "2"
      (mkDraft "Appartement B" None (daysFromCivil 2025 1 18) (daysFromCivil 2025 1 25)
         (Some "Séjour d'affaires") (Some "#10B981"));
    mkReservation "3"
      (mkDraft "Appartement C" None (daysFromCivil 2025 1 22) (daysFromCivil 2025 1 28)
         (Some "Vacances d'hiver") (Some "#F59E0B")) ].

Record HookState : Type := mkHook {
  reservations : list Reservation;
  apartments : list Apartment.t;
  error : option string;
  (** the value under [STORAGE_KEY] in localStorage *)
  stored : option (list Reservation)
}.

(** [r.id !== excludeId], where an absent [excludeId] is [undefined]. *)
Definition differs (rid : string) (excludeId : option string) : bool :=
  match excludeId with
  | Some x => negb (String.eqb rid x)
  | None => true
  end.

Definition sameId (rid : string) (r : Reservation) : bool := String.eqb (id r) rid.

(** [Date.now().toString()], the clock reading being an input. *)
Definition toString (now : N) : string := NilEmpty.string_of_uint (N.to_uint now).

(** [apartments.find(apt => apt.name === name)?.color || '#6B7280']. *)
Definition colorOf (apts : list Apartment.t) (aptName : string) : string :=
  match find (fun apt => String.eqb (Apartment.name apt) aptName) apts with
  | Some apt =>
      if String.eqb (Apartment.color apt) "" then fallbackColor else Apartment.color apt
  | None => fallbackColor
  end.

(** [localStorage.setItem(STORAGE_KEY, JSON.stringify(value))]; [quotaLeft]
    tells whether the browser accepts the write. *)
Definition setItem (quotaLeft : bool) (value : list Reservation)
    (old : option (list Reservation)) : completion (option (list Reservation)) :=
  if quotaLeft then Normal (Some value) else Throw (DOMException "QuotaExceededError").

Definition saveReservations (quotaLeft : bool) (newReservations : list Reservation)
    (st : HookState) : HookState * completion unit :=
  match setItem quotaLeft newReservations (stored st) with
  | Normal ls =>
      ({| reservations := newReservations; apartments := apartments st;
          error := None; stored := ls |}, Normal tt)
  | Throw _ =>
      ({| reservations := reservations st; apartments := apartments st;
          error := Some saveErrorState; stored := stored st |},
       Throw (Error saveErrorMessage))
  end.

Section Policy.
Variable policy : IntervalPolicy.

(** The callback of [.some] in [checkConflict]. *)
Definition overlapsExisting (newReservation : ReservationDraft)
    (reservation : Reservation) : completion bool :=
  let newStart := parseISO (startDate newReservation) in
  let newEnd := parseISO (endDate newReservation) in
  let existingStart := parseISO (startDate reservation) in
  let existingEnd := parseISO (endDate reservation) in
  orElse (isWithinInterval policy newStart existingStart existingEnd)
    (orElse (isWithinInterval policy newEnd existingStart existingEnd)
       (isWithinInterval policy existingStart newStart newEnd)).

Definition checkConflict (rs : list Reservation)
    (newReservation : ReservationDraft) (excludeId : option string)
    : completion bool :=
  some (overlapsExisting newReservation)
    (filter (fun r => differs (id r) excludeId
                      && String.eqb (apartment r) (apartment newReservation))
       rs).

Definition addReservation (now : N) (quotaLeft : bool)
    (reservation : ReservationDraft) (st : HookState)
    : HookState * completion Reservation :=
  match checkConflict (reservations st) reservation None with
  | Throw e => (st, Throw e)
  | Normal true => (st, Throw (Error conflictMessage))
  | Normal false =>
      let newReservation :=
        {| id := toString now;
           fields := withColor reservation
                       (colorOf (apartments st) (apartment reservation)) |} in
      let newReservations := (reservations st ++ [newReservation])%list in
      let (st', saved) := saveReservations quotaLeft newReservations st in
      (st', _ <- saved ;; Normal newReservation)
  end.

(** [if (updates.apartment) updatedReservation.color = ...]. *)
Definition recolor (apts : list Apartment.t) (updates : Updates.t)
    (updatedReservation : Reservation) : Reservation :=
  match Updates.apartment updates with
  | Some a =>
      if String.eqb a "" then updatedReservation
      else {| id := id updatedReservation;
              fields := withColor updatedReservation (colorOf apts a) |}
  | None => updatedReservation
  end.

Definition updateReservation (quotaLeft : bool) (rid : string)
    (updates : Updates.t) (st : HookState)
    : HookState * completion Reservation :=
  match find (sameId rid) (reservations st) with
  | None => (st, Throw (Error notFoundMessage))
  | Some existingReservation =>
      let updatedReservation := spread existingReservation updates in
      match checkConflict (reservations st) updatedReservation (Some rid) with
      | Throw e => (st, Throw e)
      | Normal true => (st, Throw (Error conflictMessage))
      | Normal false =>
          let updatedReservation := recolor (apartments st) updates updatedReservation in
          let newReservations :=
            map (fun r => if sameId rid r then updatedReservation else r)
              (reservations st) in
          let (st', saved) := saveReservations quotaLeft newReservations st in
          (st', _ <- saved ;; Normal updatedReservation)
      end
  end.
End Policy.

Definition deleteReservation (quotaLeft : bool) (rid : string) (st : HookState)
    : HookState * completion unit :=
  let newReservations := filter (fun r => negb (sameId rid r)) (reservations st) in
  saveReservations quotaLeft newReservations st.

Definition getReservation (rid : string) (st : HookState) : option Reservation :=
  find (sameId rid) (reservations st).

(** ** components/CalendarView and its wiring in App *)

(** [DragState | null] of the component; [newStartDate] and [newEndDate]
    are the optional keys the pointer move adds. *)
Record DragState : Type := mkDrag {
  reservationId : string;
  originalReservation : Reservation;
  isActive : bool;
  newStartDate : option Day;
  newEndDate : option Day
}.

Record CalendarState : Type := mkCalendar {
  selectedRange : option Day * option Day;
  isSelecting : bool;
  dragState : option DragState;
  isDragging : bool
}.

(** What a handler lets the outside see. *)
Inductive Effect : Type :=
| DateRangeSelect (startDate endDate : Day)
| ReservationEdit (reservation : Reservation)
| Alert (message : string)
| ConsoleError (message : string).

Record App : Type := mkApp {
  hook : HookState;
  calendar : CalendarState
}.

Definition setCalendar (app : App) (c : CalendarState) : App :=
  {| hook := hook app; calendar := c |}.

Definition setSelection (c : CalendarState) (range : option Day * option Day)
    (selecting : bool) : CalendarState :=
  {| selectedRange := range; isSelecting := selecting;
     dragState := dragState c; isDragging := isDragging c |}.

Definition setDragState (c : CalendarState) (ds : option DragState) : CalendarState :=
  {| selectedRange := selectedRange c; isSelecting := isSelecting c;
     dragState := ds; isDragging := isDragging c |}.

Definition setIsDragging (c : CalendarState) (b : bool) : CalendarState :=
  {| selectedRange := selectedRange c; isSelecting := isSelecting c;
     dragState := dragState c; isDragging := b |}.

(** [dragState?.isActive]. *)
Definition dragActive (c : CalendarState) : bool :=
  match dragState c with
  | Some ds => isActive ds
  | None => false
  end.

(** The two [setSelectedRange] calls of the second click are batched: the
    state of the next render holds the last one. *)
Definition handleDateClick (date : Day) (app : App) : App * list Effect :=
  let c := calendar app in
  if dragActive c then (app, [])
  else if negb (isSelecting c) then
    (setCalendar app (setSelection c (Some date, None) true), [])
  else
    match fst (selectedRange c) with
    | Some anchor =>
        let start := if anchor <=? date then anchor else date in
        let end_ := if anchor <=? date then date else anchor in
        (setCalendar app (setSelection c (None, None) false),
         [DateRangeSelect (format start) (format end_)])
    | None => (app, [])
    end.

Definition cancelSelection (app : App) : App * list Effect :=
  (setCalendar app (setSelection (calendar app) (None, None) false), []).

Definition handleReservationDoubleClick (reservation : Reservation) (app : App)
    : App * list Effect :=
  if dragActive (calendar app) then (app, []) else (app, [ReservationEdit reservation]).

Definition handleReservationMouseDown (reservation : Reservation) (app : App)
    : App * list Effect :=
  let armed :=
    {| reservationId := id reservation; originalReservation := reservation;
       isActive := false; newStartDate := None; newEndDate := None |} in
  (setCalendar app (setIsDragging (setDragState (calendar app) (Some armed)) true), []).

Definition handleMouseMove (date : Day) (app : App) : App * list Effect :=
  let c := calendar app in
  if negb (isDragging c) then (app, [])
  else
    match dragState c with
    | None => (app, [])
    | Some prev =>
        let originalStart := parseISO (startDate (originalReservation prev)) in
        let originalEnd := parseISO (endDate (originalReservation prev)) in
        let duration := differenceInDays originalEnd originalStart in
        let newStart := format date in
        let newEnd := format (addDays date duration) in
        let next :=
          {| reservationId := reservationId prev;
             originalReservation := originalReservation prev;
             isActive := true;
             newStartDate := Some newStart; newEndDate := Some newEnd |} in
        (setCalendar app (setDragState c (Some next)), [])
    end.

Definition handleMouseUp (app : App) : App * list Effect :=
  (setCalendar app (setIsDragging (calendar app) false), []).

Definition handleCancelDrag (app : App) : App * list Effect :=
  (setCalendar app (setDragState (calendar app) None), []).

Definition getDraggedReservation (rid : string) (c : CalendarState) : option Reservation :=
  match dragState c with
  | Some ds =>
      if negb (String.eqb (reservationId ds) rid) || negb (isActive ds) then None
      else
        Some (spread (originalReservation ds)
                (Updates.mk None None (newStartDate ds) (newEndDate ds) None None))
  | None => None
  end.

Definition conflictAlert : string :=
  "Conflit détecté : cette période est déjà réservée pour cet appartement.".
Definition updateErrorLog : string := "Erreur lors de la mise à jour:".

Definition messageOf (e : Exn) : string :=
  match e with
  | Error m | RangeError m | DOMException m => m
  end.

Section Wiring.
Variable policy : IntervalPolicy.

(** [handleReservationUpdate] of App: the [onReservationUpdate] prop. *)
Definition handleReservationUpdate (quotaLeft : bool) (rid : string)
    (updates : Updates.t) (st : HookState) : HookState * list Effect :=
  match updateReservation policy quotaLeft rid updates st with
  | (st', Normal _) => (st', [])
  | (st', Throw e) => (st', [ConsoleError updateErrorLog; Alert (messageOf e)])
  end.

Definition handleSaveDrag (quotaLeft : bool) (app : App)
    : App * list Effect * completion unit :=
  match dragState (calendar app) with
  | None => (app, [], Normal tt)
  | Some ds =>
      match newStartDate ds, newEndDate ds with
      | Some newStart, Some newEnd =>
          let updates := Updates.mk None None (Some newStart) (Some newEnd) None None in
          let testReservation := spread (originalReservation ds) updates in
          match checkConflict policy (reservations (hook app)) testReservation
                  (Some (reservationId ds)) with
          | Throw e => (app, [], Throw e)
          | Normal true => (app, [Alert conflictAlert], Normal tt)
          | Normal false =>
              let (st', effects) :=
                handleReservationUpdate quotaLeft (reservationId ds) updates (hook app) in
              ({| hook := st'; calendar := setDragState (calendar app) None |},
               effects, Normal tt)
          end
      | _, _ => (app, [], Normal tt)
      end
  end.
End Wiring.

(** ** The states of the two gesture machines, read off the component state *)

Inductive SelectionPhase : Type :=
| SelectionIdle
| AnchorSet (anchor : Day)
| AnchorMissing.

Definition selectionPhase (c : CalendarState) : SelectionPhase :=
  if isSelecting c then
    match fst (selectedRange c) with
    | Some anchor => AnchorSet anchor
    | None => AnchorMissing
    end
  else SelectionIdle.

Inductive DragPhase : Type :=
| DragIdle
| Armed (rid : string) (origin : Reservation)
| Previewing (rid : string) (origin : Reservation) (proposedStart proposedEnd : Day)
| Irregular.

Definition dragPhase (c : CalendarState) : DragPhase :=
  match dragState c with
  | None => DragIdle
  | Some ds =>
      match isActive ds, newStartDate ds, newEndDate ds with
      | false, None, None => Armed (reservationId ds) (originalReservation ds)
      | true, Some s, Some e => Previewing (reservationId ds) (originalReservation ds) s e
      | _, _, _ => Irregular
      end
  end.

(** ** Vocabulary of the specification *)

(** Two closed intervals of days share a day. *)
Definition closedIntervalsIntersect (aStart aEnd bStart bEnd : Day) : Prop :=
  exists d : Day, (aStart <= d <= aEnd) /\ (bStart <= d <= bEnd).

(** [intervalsOverlap] as the specification words it:
    [aStart <= bEnd && bStart <= aEnd]. *)
Definition intervalsOverlap (aStart aEnd bStart bEnd : Day) : bool :=
  (aStart <=? bEnd) && (bStart <=? aEnd).

Definition overlap (a b : ReservationDraft) : bool :=
  intervalsOverlap (startDate a) (endDate a) (startDate b) (endDate b).

Definition wellFormed (r : ReservationDraft) : Prop := startDate r <= endDate r.

(** A stored reservation that the specification counts as a conflict of the
    candidate. *)
Definition conflictsWith (rs : list Reservation) (candidate : ReservationDraft)
    (excludeId : option string) (r : Reservation) : Prop :=
  In r rs /\ apartment r = apartment candidate /\ Some (id r) <> excludeId /\
  wellFormed r /\
  closedIntervalsIntersect (startDate candidate) (endDate candidate)
    (startDate r) (endDate r).

(** No two stored reservations of one apartment that count as [distinct]
    overlap. *)
Definition NoOverlapAmong (distinct : Reservation -> Reservation -> Prop)
    (rs : list Reservation) : Prop :=
  forall a b : Reservation,
    In a rs -> In b rs -> distinct a b -> apartment a = apartment b -> overlap a b = false.

(** The per-apartment invariant of the store, for all pairs [a <> b]. *)
Definition NoOverlap (rs : list Reservation) : Prop :=
  NoOverlapAmong (fun a b => a <> b) rs.

(** The same invariant with reservations told apart by their id. *)
Definition NoOverlapAcrossIds (rs : list Reservation) : Prop :=
  NoOverlapAmong (fun a b => id a <> id b) rs.

(** The reservations [checkConflict] looks at. *)
Definition compared (rs : list Reservation) (candidate : ReservationDraft)
    (excludeId : option string) (r : Reservation) : Prop :=
  In r rs /\ Some (id r) <> excludeId /\ apartment r = apartment candidate.

(** ** Sample stores and gestures *)

Definition bookedA : Reservation :=
  mkReservation "100"
    (mkDraft "Appartement A" (Some "Durand") (daysFromCivil 2025 1 1)
       (daysFromCivil 2025 1 5) None (Some "#3B82F6")).

Definition touchingA : ReservationDraft :=
  mkDraft "Appartement A" (Some "Petit") (daysFromCivil 2025 1 5)
    (daysFromCivil 2025 1 10) None None.

(** A stored reservation whose end precedes its start, as [addReservation]
    accepts it (the hook never compares the two dates of a draft). *)
Definition invertedA : Reservation :=
  mkReservation "101"
    (mkDraft "Appartement A" None (daysFromCivil 2025 1 10) (daysFromCivil 2025 1 1)
       None None).

Definition singleDayA : Reservation :=
  mkReservation "102"
    (mkDraft "Appartement A" None (daysFromCivil 2025 1 5) (daysFromCivil 2025 1 5)
       None None).

Definition candidateA : ReservationDraft :=
  mkDraft "Appartement A" None (daysFromCivil 2025 1 5) (daysFromCivil 2025 1 5)
    None None.

Definition seeded : HookState :=
  {| reservations := defaultReservations; apartments := defaultApartments;
     error := None; stored := Some defaultReservations |}.

Definition februaryA : ReservationDraft :=
  mkDraft "Appartement A" (Some "Bernard") (daysFromCivil 2025 2 1)
    (daysFromCivil 2025 2 5) (Some "") None.

(** The state after a mutation either holds the collection it held before,
    or holds exactly what was written to the storage. *)
Definition persistedOrUntouched (st st' : HookState) : Prop :=
  (reservations st' = reservations st /\ stored st' = stored st)
  \/ stored st' = Some (reservations st').

Definition idleCalendar : CalendarState :=
  {| selectedRange := (None, None); isSelecting := false;
     dragState := None; isDragging := false |}.

Definition martin : Reservation :=
  mkReservation "1"
    (mkDraft "Appartement A" None (daysFromCivil 2025 1 15) (daysFromCivil 2025 1 20)
       (Some "Famille Martin") (Some "#3B82F6")).

Definition previewingCalendar : CalendarState :=
  {| selectedRange := (None, None); isSelecting := false;
     dragState :=
       Some {| reservationId := "1"; originalReservation := martin; isActive := true;
               newStartDate := Some (daysFromCivil 2025 2 10);
               newEndDate := Some (daysFromCivil 2025 2 15) |};
     isDragging := false |}.

Definition armedCalendar : CalendarState :=
  {| selectedRange := (None, None); isSelecting := false;
     dragState :=
       Some {| reservationId := "1"; originalReservation := martin; isActive := false;
               newStartDate := None; newEndDate := None |};
     isDragging := true |}.

Definition storeOf (rs : list Reservation) : HookState :=
  {| reservations := rs; apartments := defaultApartments;
     error := None; stored := Some rs |}.

Definition bookedA' : Reservation :=
  mkReservation "200"
    (mkDraft "Appartement A" (Some "Moreau") (daysFromCivil 2025 1 3)
       (daysFromCivil 2025 1 7) None (Some "#3B82F6")).

(** The exception of a rejected creation carries the identity of a
    reservation in the way: some reading of the exception yields the id of a
    stored reservation that the check compared with the draft and found
    overlapping. *)
Definition errorNamesConflict (policy : IntervalPolicy) : Prop :=
  exists identify : Exn -> string,
    forall now quotaLeft draft st e,
      checkConflict policy (reservations st) draft None = Normal true ->
      snd (addReservation policy now quotaLeft draft st) = Throw e ->
      exists r, compared (reservations st) draft None r
                /\ overlapsExisting policy draft r = Normal true
                /\ identify e = id r.

Definition wideA : Reservation :=
  mkReservation "103"
    (mkDraft "Appartement A" None (daysFromCivil 2025 1 8) (daysFromCivil 2025 1 12)
       None None).

(** The origin with the proposed dates: [{ ...origin, startDate, endDate }]. *)
Definition moved (origin : Reservation) (proposedStart proposedEnd : Day) : Reservation :=
  spread origin (Updates.mk None None (Some proposedStart) (Some proposedEnd) None None).

Definition previewingApp : App := {| hook := seeded; calendar := previewingCalendar |}.

(** [{ apartment: origin.apartment, startDate: proposedStart, endDate: proposedEnd }]. *)
Definition proposalA : ReservationDraft :=
  mkDraft "Appartement A" None (daysFromCivil 2025 2 10) (daysFromCivil 2025 2 15)
    None None.

(** ** Further vocabulary *)

(** Every stored reservation ends after it starts. *)
Definition AllOrdered (rs : list Reservation) : Prop :=
  forall r, In r rs -> startDate r < endDate r.

(** No id is used twice in the collection. *)
Definition UniqueIds (rs : list Reservation) : Prop := NoDup (map id rs).

(** What a mutation leaves behind, by its outcome: the collection it wrote
    and a cleared error flag after a normal return, the collections as they
    were after an exception. *)
Definition settled {A} (st : HookState) (r : HookState * completion A) : Prop :=
  match snd r with
  | Normal _ =>
      stored (fst r) = Some (reservations (fst r))
      /\ error (fst r) = None
      /\ apartments (fst r) = apartments st
  | Throw _ =>
      reservations (fst r) = reservations st
      /\ stored (fst r) = stored st
      /\ apartments (fst r) = apartments st
  end.



(** ** hooks/useReservations: the loading effect *)

(** What [localStorage.getItem] finds under a key: nothing ([null]), the
    empty string, a string that [JSON.parse] reads as a collection, or a
    string on which [JSON.parse] throws. *)
Inductive Slot (A : Type) : Type :=
| Absent
| Blank
| Json (value : A)
| Unparsable.
Arguments Absent {A}.
Arguments Blank {A}.
Arguments Json {A} value.
Arguments Unparsable {A}.

Record LocalStorage : Type := mkStorage {
  reservationsItem : Slot (list Reservation);
  apartmentsItem : Slot (list Apartment.t)
}.

Definition loadErrorState : string := "Erreur lors du chargement des données".

(** The hook once its loading effect has run, with the storage it leaves. *)
Record Mounted : Type := mkMounted {
  loaded : HookState;
  loading : bool;
  storage : LocalStorage
}.

(** [stored ? JSON.parse(stored) : (set defaults, setItem defaults)] for one
    key: the collection taken and the slot left, or [None] when [JSON.parse]
    or [setItem] throws. *)
Definition loadItem {A} (quotaLeft : bool) (defaults : A) (slot : Slot A)
    : option (A * Slot A) :=
  match slot with
  | Json v => Some (v, slot)
  | Unparsable => None
  | Absent | Blank =>
      if quotaLeft then Some (defaults, Json defaults) else None
  end.

(** The reservations the hook writes on later are the parsed ones. *)
Definition readSlot {A} (slot : Slot A) : option A :=
  match slot with
  | Json v => Some v
  | _ => None
  end.

(** The [catch] branch of the effect: the error flag and both defaults. *)
Definition loadFailed (ls : LocalStorage) : Mounted :=
  {| loaded := {| reservations := defaultReservations;
                  apartments := defaultApartments;
                  error := Some loadErrorState;
                  stored := readSlot (reservationsItem ls) |};
     loading := false;
     storage := ls |}.

(** The effect of [useReservations] on first render; [quotaReservations] and
    [quotaApartments] tell whether the two seeding writes are accepted. *)
Definition loadEffect (quotaReservations quotaApartments : bool)
    (ls : LocalStorage) : Mounted :=
  match loadItem quotaReservations defaultReservations (reservationsItem ls) with
  | None => loadFailed ls
  | Some (rs, slotR) =>
      let ls1 := {| reservationsItem := slotR; apartmentsItem := apartmentsItem ls |} in
      match loadItem quotaApartments defaultApartments (apartmentsItem ls) with
      | None => loadFailed ls1
      | Some (apts, slotA) =>
          {| loaded := {| reservations := rs; apartments := apts;
                          error := None; stored := readSlot slotR |};
             loading := false;
             storage := {| reservationsItem := slotR; apartmentsItem := slotA |} |}
      end
  end.

(** The storage a hook state leaves: its reservations slot holds what the
    hook last wrote; the apartments slot is not the hook's to write after
    loading. *)
Definition storageOf (st : HookState) (slotA : Slot (list Apartment.t)) : LocalStorage :=
  {| reservationsItem := match stored st with
                         | Some rs => Json rs
                         | None => Absent
                         end;
     apartmentsItem := slotA |}.

(** ** components/CalendarView: what a day cell shows *)

(** [Array.prototype.filter] with a callback that may throw. *)
Fixpoint filterC {A} (f : A -> completion bool) (l : list A) : completion (list A) :=
  match l with
  | [] => Normal []
  | x :: t =>
      b <- f x ;;
      rest <- filterC f t ;;
      Normal (if b then x :: rest else rest)
  end.

Definition isSameDay (dateLeft dateRight : Day) : bool := dateLeft =? dateRight.

Definition getReservationsForDate (policy : IntervalPolicy) (date : Day)
    (rs : list Reservation) : completion (list Reservation) :=
  filterC (fun reservation : Reservation =>
             let start := parseISO (startDate reservation) in
             let end_ := parseISO (endDate reservation) in
             isWithinInterval policy date start end_)
    rs.

Definition isDateInSelectedRange (policy : IntervalPolicy) (date : Day)
    (c : CalendarState) : completion bool :=
  match selectedRange c with
  | (None, _) => Normal false
  | (Some rangeStart, None) => Normal (isSameDay date rangeStart)
  | (Some rangeStart, Some rangeEnd) =>
      let start := if rangeStart <=? rangeEnd then rangeStart else rangeEnd in
      let end_ := if rangeStart <=? rangeEnd then rangeEnd else rangeStart in
      isWithinInterval policy date start end_
  end.

(** ** components/CalendarView: the events of the grid *)

(** The pointer and button events the component handles; [SaveClicked]
    carries whether the storage accepts the write it may lead to. *)
Inductive Gesture : Type :=
| DayClicked (date : Day)
| SelectionCancelled
| ReservationDoubleClicked (reservation : Reservation)
| ReservationPressed (reservation : Reservation)
| PointerEntered (date : Day)
| PointerReleased
| SaveClicked (quotaLeft : bool)
| CancelClicked.

Definition handle (policy : IntervalPolicy) (g : Gesture) (app : App)
    : App * list Effect :=
  match g with
  | DayClicked date => handleDateClick date app
  | SelectionCancelled => cancelSelection app
  | ReservationDoubleClicked r => handleReservationDoubleClick r app
  | ReservationPressed r => handleReservationMouseDown r app
  | PointerEntered date => handleMouseMove date app
  | PointerReleased => handleMouseUp app
  | SaveClicked quotaLeft => fst (handleSaveDrag policy quotaLeft app)
  | CancelClicked => handleCancelDrag app
  end.

(** The component state after a sequence of events, oldest first. *)
Fixpoint handleAll (policy : IntervalPolicy) (gs : list Gesture) (app : App) : App :=
  match gs with
  | [] => app
  | g :: rest => handleAll policy rest (fst (handle policy g app))
  end.

(** The state [useState] gives the component on mount. *)
Definition mountedCalendar : CalendarState :=
  {| selectedRange := (None, None); isSelecting := false;
     dragState := None; isDragging := false |}.

(** The drag state is one the handlers build: the id is the origin's; it is
    either armed without proposal, or active with a proposal as long as the
    origin. *)
Definition dragCoherent (c : CalendarState) : Prop :=
  match dragState c with
  | None => True
  | Some ds =>
      reservationId ds = id (originalReservation ds)
      /\ ((isActive ds = false /\ newStartDate ds = None /\ newEndDate ds = None)
          \/ (isActive ds = true
              /\ exists s e, newStartDate ds = Some s /\ newEndDate ds = Some e
                 /\ e - s = endDate (originalReservation ds)
                            - startDate (originalReservation ds)))
  end.

(** The selection state is one the handlers build: an anchor while
    selecting, nothing otherwise, and never a second end. *)
Definition selectionCoherent (c : CalendarState) : Prop :=
  if isSelecting c
  then exists anchor, selectedRange c = (Some anchor, None)
  else selectedRange c = (None, None).

(** ** components/ReservationModal and its wiring in App *)

(** The form state of the modal; a date field holds [''] ([None]) or a day. *)
Module Form.
Record t : Type := mk {
  apartment : string;
  clientName : string;
  startDate : option Day;
  endDate : option Day;
  notes : string
}.
End Form.

(** [Record<string, string>] restricted to the keys the modal uses. *)
Module FormErrors.
Record t : Type := mk {
  apartment : option string;
  clientName : option string;
  startDate : option string;
  endDate : option string;
  general : option string
}.
Definition none : t := mk None None None None None.
End FormErrors.

Inductive ModalMode : Type := CreateMode | EditMode.

Module Modal.
Record t : Type := mk {
  isOpen : bool;
  mode : ModalMode;
  reservation : option Reservation;
  initialDates : option (Day * Day)
}.
End Modal.















Section Modal.
(** [String.prototype.trim]. *)
Variable trim : string -> string.
Variable policy : IntervalPolicy.





End Modal.



(** ** Sample pages *)




(** ** components/ReservationsList *)

(** [ReservationFilters], read off its uses: every key optional. *)
Module Filters.
Record t : Type := mk {
  apartment : option string;
  clientName : option string;
  startDate : option Day;
  endDate : option Day
}.
Definition none : t := mk None None None None.
End Filters.

Inductive SortField : Type := ByStartDate | ByClientName | ByApartment.
Inductive SortOrder : Type := Asc | Desc.

(** What stops the computation of the list: a method called on a missing
    [clientName], or an exception of date-fns. *)
Inductive Failure : Type :=
| TypeError
| DateFns (e : Exn).

Inductive attempt (A : Type) : Type :=
| Done (a : A)
| Fails (f : Failure).
Arguments Done {A} a.
Arguments Fails {A} f.

Definition andThen {A B} (c : attempt A) (k : A -> attempt B) : attempt B :=
  match c with
  | Done a => k a
  | Fails f => Fails f
  end.

Definition ofCompletion {A} (c : completion A) : attempt A :=
  match c with
  | Normal a => Done a
  | Throw e => Fails (DateFns e)
  end.

(** [Array.prototype.filter] with a callback that may fail. *)
Fixpoint filterA {A} (f : A -> attempt bool) (l : list A) : attempt (list A) :=
  match l with
  | [] => Done []
  | x :: t =>
      andThen (f x) (fun b =>
      andThen (filterA f t) (fun rest =>
      Done (if b then x :: rest else rest)))
  end.

(** [String.prototype.includes]. *)
Definition includes (s searchString : string) : bool :=
  match String.index 0 searchString s with
  | Some _ => true
  | None => false
  end.

(** A string in a condition: [undefined] and [''] are falsy. *)
Definition truthy (s : option string) : option string :=
  match s with
  | Some v => if String.eqb v "" then None else Some v
  | None => None
  end.

Section ReservationsList.
(** [String.prototype.toLowerCase], and [<] on strings. *)
Variable toLowerCase : string -> string.
Variable stringLt : string -> string -> bool.
Variable policy : IntervalPolicy.

(** The three tests of the filter callback, each telling whether the
    reservation is to be dropped. *)
Definition otherApartment (filters : Filters.t) (reservation : Reservation) : bool :=
  match truthy (Filters.apartment filters) with
  | Some wanted => negb (String.eqb (apartment reservation) wanted)
  | None => false
  end.

Definition otherClient (filters : Filters.t) (reservation : Reservation)
    : attempt bool :=
  match truthy (Filters.clientName filters) with
  | Some wanted =>
      match clientName reservation with
      | Some name => Done (negb (includes (toLowerCase name) (toLowerCase wanted)))
      | None => Fails TypeError
      end
  | None => Done false
  end.

Definition outsideRange (filters : Filters.t) (reservation : Reservation)
    : attempt bool :=
  match Filters.startDate filters, Filters.endDate filters with
  | Some filterStartDate, Some filterEndDate =>
      let filterStart := parseISO filterStartDate in
      let filterEnd := parseISO filterEndDate in
      let reservationStart := parseISO (startDate reservation) in
      let reservationEnd := parseISO (endDate reservation) in
      andThen
        (ofCompletion
           (orElse (isWithinInterval policy reservationStart filterStart filterEnd)
              (orElse (isWithinInterval policy reservationEnd filterStart filterEnd)
                 (isWithinInterval policy filterStart reservationStart reservationEnd))))
        (fun overlaps => Done (negb overlaps))
  | _, _ => Done false
  end.

(** The callback of [reservations.filter]. *)
Definition passes (filters : Filters.t) (reservation : Reservation) : attempt bool :=
  if otherApartment filters reservation then Done false
  else
    andThen (otherClient filters reservation) (fun dropped =>
    if dropped then Done false
    else
      andThen (outsideRange filters reservation) (fun dropped' =>
      Done (negb dropped'))).

(** [aValue < bValue] and [aValue > bValue] for the chosen key. *)
Definition keysOrdered (sortBy : SortField) (a b : Reservation) : attempt (bool * bool) :=
  match sortBy with
  | ByStartDate =>
      let aValue := parseISO (startDate a) in
      let bValue := parseISO (startDate b) in
      Done (aValue <? bValue, bValue <? aValue)
  | ByClientName =>
      match clientName a with
      | None => Fails TypeError
      | Some aName =>
          match clientName b with
          | None => Fails TypeError
          | Some bName =>
              let aValue := toLowerCase aName in
              let bValue := toLowerCase bName in
              Done (stringLt aValue bValue, stringLt bValue aValue)
          end
      end
  | ByApartment =>
      let aValue := toLowerCase (apartment a) in
      let bValue := toLowerCase (apartment b) in
      Done (stringLt aValue bValue, stringLt bValue aValue)
  end.

(** The comparator handed to [sort]. *)
Definition comparator (sortBy : SortField) (sortOrder : SortOrder)
    (a b : Reservation) : attempt Z :=
  andThen (keysOrdered sortBy a b) (fun lg =>
  if fst lg then Done (match sortOrder with Asc => -1 | Desc => 1 end)
  else if snd lg then Done (match sortOrder with Asc => 1 | Desc => -1 end)
  else Done 0).

(** [Array.prototype.sort] is stable; with a comparator that may fail it is
    rendered here as the stable insertion sort, which like every comparison
    sort hands each element of a list of two or more to the comparator. *)
Fixpoint insertSorted (cmp : Reservation -> Reservation -> attempt Z)
    (x : Reservation) (l : list Reservation) : attempt (list Reservation) :=
  match l with
  | [] => Done [x]
  | y :: t =>
      andThen (cmp x y) (fun c =>
      if c <=? 0 then Done (x :: y :: t)
      else andThen (insertSorted cmp x t) (fun t' => Done (y :: t')))
  end.

Fixpoint sort (cmp : Reservation -> Reservation -> attempt Z)
    (l : list Reservation) : attempt (list Reservation) :=
  match l with
  | [] => Done []
  | x :: t => andThen (sort cmp t) (insertSorted cmp x)
  end.

Definition filteredAndSortedReservations (rs : list Reservation)
    (filters : Filters.t) (sortBy : SortField) (sortOrder : SortOrder)
    : attempt (list Reservation) :=
  andThen (filterA (passes filters) rs) (sort (comparator sortBy sortOrder)).

Definition handleSort (field : SortField) (state : SortField * SortOrder)
    : SortField * SortOrder :=
  let (sortBy, sortOrder) := state in
  let same := match sortBy, field with
              | ByStartDate, ByStartDate
              | ByClientName, ByClientName
              | ByApartment, ByApartment => true
              | _, _ => false
              end in
  if same then (sortBy, match sortOrder with Asc => Desc | Desc => Asc end)
  else (field, Asc).
End ReservationsList.

(** * Properties *)

(** ** Day numbers *)

Example daysFromCivil_epoch :
  daysFromCivil 1970 1 1 = 0 /\ daysFromCivil 2025 1 1 = 20089
  /\ daysFromCivil 2024 2 29 + 1 = daysFromCivil 2024 3 1.
Proof. repeat split. Qed.

(** ** Completions and array helpers *)

Lemma some_false_iff {A} (f : A -> completion bool) (l : list A) :
  some f l = Normal false <-> forall x, In x l -> f x = Normal false.
Proof.
  induction l as [|x t IH]; simpl.
  - split; [intros _ y []|reflexivity].
  - destruct (f x) as [[|]|e] eqn:Hx; simpl.
    + split; [discriminate|].
      intros H. specialize (H x (or_introl eq_refl)). congruence.
    + rewrite IH. split.
      * intros H y [<-|Hy]; auto.
      * intros H y Hy. apply H. now right.
    + split; [discriminate|].
      intros H. specialize (H x (or_introl eq_refl)). congruence.
Qed.

Lemma some_true_inv {A} (f : A -> completion bool) (l : list A) :
  some f l = Normal true -> exists x, In x l /\ f x = Normal true.
Proof.
  induction l as [|x t IH]; simpl; [discriminate|].
  destruct (f x) as [[|]|e] eqn:Hx; simpl.
  - intros _. exists x. auto.
  - intros H. destruct (IH H) as (y & Hy & Hfy). exists y. auto.
  - discriminate.
Qed.

(** When the callback never throws, [some] is [existsb]. *)
Lemma some_total {A} (f : A -> completion bool) (g : A -> bool) (l : list A) :
  (forall x, In x l -> f x = Normal (g x)) -> some f l = Normal (existsb g l).
Proof.
  induction l as [|x t IH]; simpl; intros H; [reflexivity|].
  rewrite (H x (or_introl eq_refl)). simpl.
  destruct (g x); simpl; [reflexivity|].
  apply IH. intros y Hy. apply H. now right.
Qed.

Lemma differs_spec (rid : string) (excludeId : option string) :
  differs rid excludeId = true <-> Some rid <> excludeId.
Proof.
  destruct excludeId as [x|]; simpl.
  - destruct (String.eqb_spec rid x) as [->|Hne]; simpl.
    + split; [discriminate|]. intros H. now elim H.
    + split; [|reflexivity]. intros _ [=]. contradiction.
  - split; [intros _; discriminate|reflexivity].
Qed.

Lemma compared_filter (rs : list Reservation) (candidate : ReservationDraft)
    (excludeId : option string) (r : Reservation) :
  In r (filter (fun r => differs (id r) excludeId
                         && String.eqb (apartment r) (apartment candidate)) rs)
  <-> compared rs candidate excludeId r.
Proof.
  unfold compared. rewrite filter_In, andb_true_iff, differs_spec, String.eqb_eq.
  tauto.
Qed.

(** ** Interval tests *)

Lemma intervalsOverlap_true (aStart aEnd bStart bEnd : Day) :
  intervalsOverlap aStart aEnd bStart bEnd = true <-> aStart <= bEnd /\ bStart <= aEnd.
Proof. unfold intervalsOverlap. rewrite andb_true_iff, !Z.leb_le. tauto. Qed.

Lemma intervalsOverlap_sym (aStart aEnd bStart bEnd : Day) :
  intervalsOverlap aStart aEnd bStart bEnd = intervalsOverlap bStart bEnd aStart aEnd.
Proof. unfold intervalsOverlap. apply andb_comm. Qed.

Lemma intersect_iff_overlap (aStart aEnd bStart bEnd : Day) :
  aStart <= aEnd -> bStart <= bEnd ->
  (closedIntervalsIntersect aStart aEnd bStart bEnd
   <-> intervalsOverlap aStart aEnd bStart bEnd = true).
Proof.
  intros Ha Hb. rewrite intervalsOverlap_true. split.
  - intros (d & H1 & H2). lia.
  - intros [H1 H2]. exists (Z.max aStart bStart). lia.
Qed.

Lemma isWithinInterval_ordered (policy : IntervalPolicy) (date start end_ : Day) :
  start <= end_ ->
  isWithinInterval policy date start end_ = Normal ((start <=? date) && (date <=? end_)).
Proof.
  intros H. destruct policy; simpl.
  - apply Z.leb_le in H. now rewrite H.
  - now rewrite Z.min_l, Z.max_r by lia.
Qed.

Ltac leb_cases :=
  repeat match goal with
    | |- context [?a <=? ?b] => destruct (Z.leb_spec a b)
    | H : context [?a <=? ?b] |- _ => destruct (Z.leb_spec a b)
    end.

(** On well-formed intervals the three membership tests of the source
    decide exactly the overlap of the specification. *)
Lemma overlapsExisting_ordered (policy : IntervalPolicy)
    (candidate : ReservationDraft) (r : Reservation) :
  wellFormed candidate -> wellFormed r ->
  overlapsExisting policy candidate r = Normal (overlap candidate r).
Proof.
  unfold wellFormed, overlapsExisting, overlap, intervalsOverlap, parseISO.
  intros Hc Hr. rewrite !isWithinInterval_ordered by assumption.
  unfold orElse; simpl.
  leb_cases; simpl; try reflexivity; lia.
Qed.

(** Whatever the dates, a negative answer of the source excludes the overlap
    of the specification. *)
Lemma overlapsExisting_false (policy : IntervalPolicy)
    (candidate : ReservationDraft) (r : Reservation) :
  overlapsExisting policy candidate r = Normal false -> overlap candidate r = false.
Proof.
  unfold overlapsExisting, overlap, intervalsOverlap, parseISO, orElse, isWithinInterval.
  destruct policy; simpl.
  - leb_cases; simpl; try discriminate; intros _; try reflexivity; lia.
  - leb_cases; simpl; try discriminate; intros _; try reflexivity; lia.
Qed.

Lemma checkConflict_false (policy : IntervalPolicy) (rs : list Reservation)
    (candidate : ReservationDraft) (excludeId : option string) :
  checkConflict policy rs candidate excludeId = Normal false ->
  forall r, compared rs candidate excludeId r -> overlap candidate r = false.
Proof.
  unfold checkConflict. rewrite some_false_iff. intros H r Hr.
  apply (overlapsExisting_false policy), H, compared_filter, Hr.
Qed.

Lemma checkConflict_ordered (policy : IntervalPolicy) (rs : list Reservation)
    (candidate : ReservationDraft) (excludeId : option string) :
  wellFormed candidate ->
  (forall r, compared rs candidate excludeId r -> wellFormed r) ->
  checkConflict policy rs candidate excludeId
  = Normal (existsb (fun r : Reservation => overlap candidate r)
              (filter (fun r => differs (id r) excludeId
                                && String.eqb (apartment r) (apartment candidate)) rs)).
Proof.
  intros Hc Hrs. unfold checkConflict. apply some_total.
  intros r Hr. apply overlapsExisting_ordered; [assumption|].
  apply Hrs, compared_filter, Hr.
Qed.

(** [checkConflict] reads the apartment and the two dates of the candidate
    and nothing else. *)
Lemma checkConflict_fields (policy : IntervalPolicy) (rs : list Reservation)
    (a b : ReservationDraft) (excludeId : option string) :
  apartment a = apartment b -> startDate a = startDate b -> endDate a = endDate b ->
  checkConflict policy rs a excludeId = checkConflict policy rs b excludeId.
Proof.
  intros Hap Hs He. unfold checkConflict, overlapsExisting.
  now rewrite Hap, Hs, He.
Qed.

(** ** Conflict detection *)

(** C1, as amended.  For a candidate with [startDate <= endDate], and a
    store in which the reservations the check looks at (same apartment, id
    other than the excluded one) have [startDate <= endDate] too,
    [checkConflict] returns [true] exactly when one of them has a closed
    interval intersecting the candidate's.  Closed intervals intersect
    exactly when [aStart <= bEnd] and [bStart <= aEnd]; a shared boundary day
    is a conflict; the test is symmetric in the two intervals. *)
Theorem checkConflict_iff_intersecting (policy : IntervalPolicy)
    (rs : list Reservation) (candidate : ReservationDraft)
    (excludeId : option string) :
  wellFormed candidate ->
  (forall r, compared rs candidate excludeId r -> wellFormed r) ->
  (checkConflict policy rs candidate excludeId = Normal true
   <-> exists r, conflictsWith rs candidate excludeId r)
  /\ (forall r, compared rs candidate excludeId r ->
        (closedIntervalsIntersect (startDate candidate) (endDate candidate)
           (startDate r) (endDate r)
         <-> startDate candidate <= endDate r /\ startDate r <= endDate candidate))
  /\ (forall r, compared rs candidate excludeId r ->
        endDate r = startDate candidate \/ endDate candidate = startDate r ->
        checkConflict policy rs candidate excludeId = Normal true)
  /\ (forall r, compared rs candidate excludeId r ->
        overlapsExisting policy candidate r
        = overlapsExisting policy r (mkReservation (id r) candidate)).
Proof.
  intros Hc Hrs.
  assert (Hint : forall r, compared rs candidate excludeId r ->
            (closedIntervalsIntersect (startDate candidate) (endDate candidate)
               (startDate r) (endDate r) <-> overlap candidate r = true)).
  { intros r Hr. apply intersect_iff_overlap; [exact Hc|exact (Hrs r Hr)]. }
  assert (Hiff : checkConflict policy rs candidate excludeId = Normal true
                 <-> exists r, compared rs candidate excludeId r
                               /\ overlap candidate r = true).
  { rewrite checkConflict_ordered by assumption. split.
    - intros [= H]. apply existsb_exists in H. destruct H as (r & Hr & Ho).
      exists r. split; [now apply compared_filter|exact Ho].
    - intros (r & Hr & Ho). f_equal. apply existsb_exists.
      exists r. split; [now apply compared_filter|exact Ho]. }
  split; [split|split; [|split]].
  - intros H. apply Hiff in H. destruct H as (r & Hr & Ho).
    exists r. destruct Hr as (Hin & Hid & Hap).
    repeat split; try assumption.
    + apply Hrs. repeat split; assumption.
    + apply Hint; [repeat split; assumption|exact Ho].
  - intros (r & Hin & Hap & Hid & _ & Hx). apply Hiff. exists r.
    assert (Hr : compared rs candidate excludeId r) by (repeat split; assumption).
    split; [exact Hr|]. now apply Hint.
  - intros r Hr. rewrite (Hint r Hr). apply intervalsOverlap_true.
  - intros r Hr Htouch. apply Hiff. exists r. split; [exact Hr|].
    apply intervalsOverlap_true. specialize (Hrs r Hr).
    unfold wellFormed in *. lia.
  - intros r Hr. specialize (Hrs r Hr).
    rewrite !overlapsExisting_ordered by assumption.
    unfold overlap. simpl. now rewrite intervalsOverlap_sym.
Qed.

Lemma checkConflict_iff_intersecting_touching :
  wellFormed touchingA
  /\ checkConflict SortEndpoints [bookedA] touchingA None = Normal true
  /\ checkConflict RejectInverted [bookedA] touchingA None = Normal true.
Proof.
  assert (Hc : wellFormed touchingA) by (vm_compute; discriminate).
  assert (Hrs : forall r, compared [bookedA] touchingA None r -> wellFormed r).
  { intros r ([<-|[]] & _). vm_compute; discriminate. }
  assert (Hr : compared [bookedA] touchingA None bookedA).
  { repeat split; [now left|discriminate]. }
  split; [exact Hc|]. split.
  - exact (proj1 (proj2 (proj2
      (checkConflict_iff_intersecting SortEndpoints [bookedA] touchingA None Hc Hrs)))
      bookedA Hr (or_introl eq_refl)).
  - exact (proj1 (proj2 (proj2
      (checkConflict_iff_intersecting RejectInverted [bookedA] touchingA None Hc Hrs)))
      bookedA Hr (or_introl eq_refl)).
Defined.

(** C1 without the restriction on the store fails when a stored reservation
    of the apartment has its end before its start.  If date-fns throws on
    inverted intervals, the scan stops with [RangeError] before it reaches a
    well-formed reservation that intersects; if it sorts the endpoints, the
    inverted reservation itself is reported although no well-formed
    reservation intersects. *)
Lemma checkConflict_inverted_stored_interval :
  wellFormed candidateA
  /\ (checkConflict RejectInverted [invertedA; singleDayA] candidateA None
        = Throw (RangeError "Invalid interval")
      /\ conflictsWith [invertedA; singleDayA] candidateA None singleDayA)
  /\ (checkConflict SortEndpoints [invertedA] candidateA None = Normal true
      /\ ~ exists r, conflictsWith [invertedA] candidateA None r).
Proof.
  split; [vm_compute; discriminate|]. split; split.
  - reflexivity.
  - unfold conflictsWith. repeat split.
    + right. now left.
    + discriminate.
    + vm_compute; discriminate.
    + exists (daysFromCivil 2025 1 5). vm_compute. repeat split; discriminate.
  - reflexivity.
  - intros (r & [<-|[]] & _ & _ & Hwf & _). vm_compute in Hwf. now apply Hwf.
Qed.

(** ** The store keeps apartments free of overlaps *)

Lemma overlap_sym (a b : ReservationDraft) : overlap a b = overlap b a.
Proof. apply intervalsOverlap_sym. Qed.

Lemma saveReservations_ok (quotaLeft : bool) (news : list Reservation)
    (st st' : HookState) (v : unit) :
  saveReservations quotaLeft news st = (st', Normal v) ->
  quotaLeft = true /\ reservations st' = news /\ stored st' = Some news.
Proof.
  unfold saveReservations, setItem. destruct quotaLeft; simpl; [|discriminate].
  intros [= <-]. auto.
Qed.

Lemma saveReservations_full (news : list Reservation) (st : HookState) :
  saveReservations false news st
  = ({| reservations := reservations st; apartments := apartments st;
        error := Some saveErrorState; stored := stored st |},
     Throw (Error saveErrorMessage)).
Proof. reflexivity. Qed.

Lemma recolor_fields (apts : list Apartment.t) (updates : Updates.t) (r : Reservation) :
  id (recolor apts updates r) = id r
  /\ apartment (recolor apts updates r) = apartment r
  /\ clientName (recolor apts updates r) = clientName r
  /\ startDate (recolor apts updates r) = startDate r
  /\ endDate (recolor apts updates r) = endDate r
  /\ notes (recolor apts updates r) = notes r.
Proof.
  unfold recolor. destruct (Updates.apartment updates) as [a|]; [|tauto].
  destruct (String.eqb a ""); simpl; tauto.
Qed.

Lemma addReservation_ok (policy : IntervalPolicy) (now : N) (quotaLeft : bool)
    (draft : ReservationDraft) (st st' : HookState) (r : Reservation) :
  addReservation policy now quotaLeft draft st = (st', Normal r) ->
  checkConflict policy (reservations st) draft None = Normal false
  /\ quotaLeft = true
  /\ r = mkReservation (toString now)
           (withColor draft (colorOf (apartments st) (apartment draft)))
  /\ reservations st' = (reservations st ++ [r])%list.
Proof.
  unfold addReservation.
  destruct (checkConflict policy (reservations st) draft None) as [[|]|e];
    try discriminate.
  destruct (saveReservations quotaLeft _ st) as [st1 [v|e]] eqn:Hsave;
    simpl; [|discriminate].
  intros [= -> <-]. apply saveReservations_ok in Hsave.
  destruct Hsave as (Hq & Hrs & _). auto.
Qed.

Lemma updateReservation_ok (policy : IntervalPolicy) (quotaLeft : bool)
    (rid : string) (updates : Updates.t) (st st' : HookState) (r : Reservation) :
  updateReservation policy quotaLeft rid updates st = (st', Normal r) ->
  exists existing,
    find (sameId rid) (reservations st) = Some existing
    /\ checkConflict policy (reservations st) (spread existing updates) (Some rid)
       = Normal false
    /\ quotaLeft = true
    /\ r = recolor (apartments st) updates (spread existing updates)
    /\ reservations st'
       = map (fun x => if sameId rid x then r else x) (reservations st).
Proof.
  unfold updateReservation.
  destruct (find (sameId rid) (reservations st)) as [existing|]; [|discriminate].
  destruct (checkConflict policy (reservations st) (spread existing updates) (Some rid))
    as [[|]|e] eqn:Hchk; try discriminate.
  destruct (saveReservations quotaLeft _ st) as [st1 [v|e]] eqn:Hsave;
    unfold bind; [|discriminate].
  intros [= -> <-]. apply saveReservations_ok in Hsave.
  destruct Hsave as (Hq & Hrs & _). exists existing. auto.
Qed.

Section Invariant.
Variable distinct : Reservation -> Reservation -> Prop.
Hypothesis distinct_irrefl : forall r, ~ distinct r r.

Lemma NoOverlapAmong_app (rs : list Reservation) (r : Reservation) :
  NoOverlapAmong distinct rs ->
  (forall x, In x rs -> apartment x = apartment r -> overlap r x = false) ->
  NoOverlapAmong distinct (rs ++ [r]).
Proof.
  intros Hrs Hr a b Ha Hb Hne Hap.
  apply in_app_or in Ha. apply in_app_or in Hb.
  destruct Ha as [Ha|[<-|[]]], Hb as [Hb|[<-|[]]].
  - now apply Hrs.
  - rewrite overlap_sym. now apply Hr.
  - apply Hr; [assumption|now symmetry].
  - now apply distinct_irrefl in Hne.
Qed.

Lemma NoOverlapAmong_replace (rs : list Reservation) (rid : string) (r : Reservation) :
  NoOverlapAmong distinct rs ->
  (forall x, In x rs -> sameId rid x = false -> apartment x = apartment r ->
             overlap r x = false) ->
  NoOverlapAmong distinct (map (fun x => if sameId rid x then r else x) rs).
Proof.
  intros Hrs Hr a b Ha Hb Hne Hap.
  apply in_map_iff in Ha. destruct Ha as (a0 & <- & Ha).
  apply in_map_iff in Hb. destruct Hb as (b0 & <- & Hb).
  destruct (sameId rid a0) eqn:Ea, (sameId rid b0) eqn:Eb.
  - now apply distinct_irrefl in Hne.
  - apply Hr; [assumption|assumption|now symmetry].
  - rewrite overlap_sym. now apply Hr.
  - now apply Hrs.
Qed.

Lemma NoOverlapAmong_filter (rs : list Reservation) (keep : Reservation -> bool) :
  NoOverlapAmong distinct rs -> NoOverlapAmong distinct (filter keep rs).
Proof.
  intros Hrs a b Ha Hb. apply filter_In in Ha, Hb.
  apply Hrs; tauto.
Qed.

(** Every mutation that returns normally preserves the invariant, however
    reservations are told apart. *)
Lemma mutations_preserve_NoOverlapAmong (policy : IntervalPolicy) (st : HookState) :
  NoOverlapAmong distinct (reservations st) ->
  (forall now quotaLeft draft st' r,
      addReservation policy now quotaLeft draft st = (st', Normal r) ->
      NoOverlapAmong distinct (reservations st'))
  /\ (forall quotaLeft rid updates st' r,
         updateReservation policy quotaLeft rid updates st = (st', Normal r) ->
         NoOverlapAmong distinct (reservations st'))
  /\ (forall quotaLeft rid st' v,
         deleteReservation quotaLeft rid st = (st', Normal v) ->
         NoOverlapAmong distinct (reservations st')).
Proof.
  intros Hrs. split; [|split].
  - intros now quotaLeft draft st' r H.
    apply addReservation_ok in H. destruct H as (Hchk & _ & Hr & ->).
    apply NoOverlapAmong_app; [assumption|].
    intros x Hx Hap. subst r. simpl in Hap.
    apply (checkConflict_false _ _ _ _ Hchk x).
    repeat split; [assumption|discriminate|exact Hap].
  - intros quotaLeft rid updates st' r H.
    apply updateReservation_ok in H.
    destruct H as (existing & _ & Hchk & _ & Hr & ->).
    apply NoOverlapAmong_replace; [assumption|].
    intros x Hx Hid Hap.
    destruct (recolor_fields (apartments st) updates (spread existing updates))
      as (_ & Eap & _ & Es & Ee & _).
    rewrite <- Hr in Eap, Es, Ee.
    assert (Ho : overlap (spread existing updates) x = false).
    { apply (checkConflict_false _ _ _ _ Hchk x). repeat split.
      - assumption.
      - apply differs_spec. simpl. unfold sameId in Hid. now rewrite Hid.
      - now rewrite Hap. }
    unfold overlap in *. now rewrite Es, Ee.
  - intros quotaLeft rid st' v H. unfold deleteReservation in H.
    apply saveReservations_ok in H. destruct H as (_ & -> & _).
    now apply NoOverlapAmong_filter.
Qed.
End Invariant.

(** C2.  From a store in which no two distinct reservations of one
    apartment overlap, every [addReservation], [updateReservation] and
    [deleteReservation] that returns normally leaves a store with the same
    property. *)
Theorem mutations_preserve_NoOverlap (policy : IntervalPolicy) (st : HookState) :
  NoOverlap (reservations st) ->
  (forall now quotaLeft draft st' r,
      addReservation policy now quotaLeft draft st = (st', Normal r) ->
      NoOverlap (reservations st'))
  /\ (forall quotaLeft rid updates st' r,
         updateReservation policy quotaLeft rid updates st = (st', Normal r) ->
         NoOverlap (reservations st'))
  /\ (forall quotaLeft rid st' v,
         deleteReservation quotaLeft rid st = (st', Normal v) ->
         NoOverlap (reservations st')).
Proof.
  apply (mutations_preserve_NoOverlapAmong (fun a b => a <> b)).
  intros r H. now apply H.
Qed.

(** The invariant read with reservations told apart by id is preserved as
    well. *)
Lemma mutations_preserve_NoOverlapAcrossIds (policy : IntervalPolicy) (st : HookState) :
  NoOverlapAcrossIds (reservations st) ->
  (forall now quotaLeft draft st' r,
      addReservation policy now quotaLeft draft st = (st', Normal r) ->
      NoOverlapAcrossIds (reservations st'))
  /\ (forall quotaLeft rid updates st' r,
         updateReservation policy quotaLeft rid updates st = (st', Normal r) ->
         NoOverlapAcrossIds (reservations st'))
  /\ (forall quotaLeft rid st' v,
         deleteReservation quotaLeft rid st = (st', Normal v) ->
         NoOverlapAcrossIds (reservations st')).
Proof.
  apply (mutations_preserve_NoOverlapAmong (fun a b => id a <> id b)).
  intros r H. now apply H.
Qed.

Lemma NoOverlap_defaultReservations : NoOverlap defaultReservations.
Proof.
  intros a b Ha Hb Hne Hap. simpl in Ha, Hb.
  destruct Ha as [<-|[<-|[<-|[]]]], Hb as [<-|[<-|[<-|[]]]];
    try (now elim Hne); discriminate Hap.
Qed.

Lemma mutations_preserve_NoOverlap_seeded :
  NoOverlap (reservations seeded)
  /\ NoOverlap
       (reservations (fst (addReservation SortEndpoints 1737000000000 true februaryA seeded)))
  /\ NoOverlap (reservations (fst (deleteReservation true "2" seeded))).
Proof.
  pose proof NoOverlap_defaultReservations as H0.
  split; [exact H0|]. split.
  - eapply (proj1 (mutations_preserve_NoOverlap SortEndpoints seeded H0)
              1737000000000%N true februaryA).
    vm_compute. reflexivity.
  - eapply (proj2 (proj2 (mutations_preserve_NoOverlap SortEndpoints seeded H0))
              true "2").
    vm_compute. reflexivity.
Defined.

(** ** Persistence failures *)

Ltac store_step := cbn [fst snd bind reservations stored error apartments].

Lemma saveReservations_outcome (quotaLeft : bool) (news : list Reservation)
    (st : HookState) :
  let r := saveReservations quotaLeft news st in
  (quotaLeft = true /\ snd r = Normal tt /\ reservations (fst r) = news
   /\ stored (fst r) = Some news)
  \/ (quotaLeft = false /\ snd r = Throw (Error saveErrorMessage)
      /\ reservations (fst r) = reservations st /\ stored (fst r) = stored st
      /\ error (fst r) = Some saveErrorState).
Proof. destruct quotaLeft; simpl; [left|right]; repeat split. Qed.

(** C3.  When [localStorage.setItem] fails, [addReservation],
    [updateReservation] and [deleteReservation] throw and leave both the
    in-memory collection and the stored one as they were; whatever the
    storage does, the collection never holds what was not written. *)
Theorem write_failure_keeps_collection (policy : IntervalPolicy) (now : N)
    (draft : ReservationDraft) (rid : string) (updates : Updates.t)
    (st : HookState) :
  let created := addReservation policy now false draft st in
  let updated := updateReservation policy false rid updates st in
  let deleted := deleteReservation false rid st in
  ((exists e, snd created = Throw e)
   /\ reservations (fst created) = reservations st
   /\ stored (fst created) = stored st)
  /\ ((exists e, snd updated = Throw e)
      /\ reservations (fst updated) = reservations st
      /\ stored (fst updated) = stored st)
  /\ (snd deleted = Throw (Error saveErrorMessage)
      /\ reservations (fst deleted) = reservations st
      /\ stored (fst deleted) = stored st)
  /\ (forall quotaLeft,
         persistedOrUntouched st (fst (addReservation policy now quotaLeft draft st))
         /\ persistedOrUntouched st (fst (updateReservation policy quotaLeft rid updates st))
         /\ persistedOrUntouched st (fst (deleteReservation quotaLeft rid st))).
Proof.
  cbv zeta. unfold addReservation, updateReservation, deleteReservation,
    saveReservations, setItem, persistedOrUntouched.
  split; [|split; [|split]].
  - destruct (checkConflict policy (reservations st) draft None) as [[|]|e];
      store_step; eauto.
  - destruct (find (sameId rid) (reservations st)) as [existing|];
      store_step; eauto.
    destruct (checkConflict policy (reservations st) (spread existing updates) (Some rid))
      as [[|]|e]; store_step; eauto.
  - store_step. auto.
  - intros quotaLeft. split; [|split].
    + destruct (checkConflict policy (reservations st) draft None) as [[|]|e];
        store_step; auto.
      destruct quotaLeft; store_step; auto.
    + destruct (find (sameId rid) (reservations st)) as [existing|];
        store_step; auto.
      destruct (checkConflict policy (reservations st) (spread existing updates) (Some rid))
        as [[|]|e]; store_step; auto.
      destruct quotaLeft; store_step; auto.
    + destruct quotaLeft; store_step; auto.
Qed.

(** When the write is reached, the error is the one of [saveReservations]
    and the hook records it. *)
Lemma addReservation_write_failure (policy : IntervalPolicy) (now : N)
    (draft : ReservationDraft) (st : HookState) :
  checkConflict policy (reservations st) draft None = Normal false ->
  addReservation policy now false draft st
  = ({| reservations := reservations st; apartments := apartments st;
        error := Some saveErrorState; stored := stored st |},
     Throw (Error saveErrorMessage)).
Proof. intros H. unfold addReservation. now rewrite H. Qed.

Lemma updateReservation_write_failure (policy : IntervalPolicy) (rid : string)
    (updates : Updates.t) (st : HookState) (existing : Reservation) :
  find (sameId rid) (reservations st) = Some existing ->
  checkConflict policy (reservations st) (spread existing updates) (Some rid)
  = Normal false ->
  updateReservation policy false rid updates st
  = ({| reservations := reservations st; apartments := apartments st;
        error := Some saveErrorState; stored := stored st |},
     Throw (Error saveErrorMessage)).
Proof. intros Hf H. unfold updateReservation. now rewrite Hf, H. Qed.

(** ** The drag-reschedule gesture *)

(** C5.  Pressing a stored reservation [R] and moving the pointer to day [D]
    gives [Previewing] with the proposal [D, D + (R.endDate - R.startDate)];
    releasing the pointer keeps that state and commits nothing; cancelling
    gives [Idle] and the store still holds [R]. *)
Theorem drag_preview_release_cancel (app : App) (R : Reservation) (D : Day) :
  In R (reservations (hook app)) ->
  let pressed := handleReservationMouseDown R app in
  let moved := handleMouseMove D (fst pressed) in
  let released := handleMouseUp (fst moved) in
  let cancelled := handleCancelDrag (fst released) in
  let proposedEnd := D + (endDate R - startDate R) in
  dragPhase (calendar (fst moved)) = Previewing (id R) R D proposedEnd
  /\ proposedEnd - D = endDate R - startDate R
  /\ dragPhase (calendar (fst released)) = Previewing (id R) R D proposedEnd
  /\ hook (fst released) = hook app
  /\ (snd pressed ++ snd moved ++ snd released)%list = []
  /\ dragPhase (calendar (fst cancelled)) = DragIdle
  /\ hook (fst cancelled) = hook app
  /\ snd cancelled = []
  /\ In R (reservations (hook (fst cancelled))).
Proof.
  intros HR. cbv zeta.
  unfold handleCancelDrag, handleMouseUp, handleMouseMove, handleReservationMouseDown,
    dragPhase, differenceInDays, addDays, parseISO, format.
  simpl. repeat split; try assumption; lia.
Qed.

Lemma drag_preview_release_cancel_martin :
  let app := {| hook := seeded; calendar := idleCalendar |} in
  let D := daysFromCivil 2025 2 10 in
  In martin (reservations (hook app))
  /\ dragPhase (calendar (fst (handleMouseUp
        (fst (handleMouseMove D (fst (handleReservationMouseDown martin app)))))))
     = Previewing "1" martin D (daysFromCivil 2025 2 15).
Proof.
  cbv zeta.
  assert (H : In martin (reservations (hook {| hook := seeded; calendar := idleCalendar |})))
    by (left; reflexivity).
  split; [exact H|].
  exact (proj1 (proj2 (proj2
    (drag_preview_release_cancel {| hook := seeded; calendar := idleCalendar |}
       martin (daysFromCivil 2025 2 10) H)))).
Defined.

(** C9.  A press on a reservation while a gesture is [Armed] or
    [Previewing] replaces that gesture: the drag state is the freshly armed
    one of the pressed reservation, without proposal, and the store is not
    touched. *)
Theorem press_replaces_gesture (app : App) (r : Reservation) :
  (exists rid origin, dragPhase (calendar app) = Armed rid origin)
  \/ (exists rid origin s e, dragPhase (calendar app) = Previewing rid origin s e) ->
  let pressed := handleReservationMouseDown r app in
  dragState (calendar (fst pressed))
  = Some {| reservationId := id r; originalReservation := r; isActive := false;
            newStartDate := None; newEndDate := None |}
  /\ dragPhase (calendar (fst pressed)) = Armed (id r) r
  /\ isDragging (calendar (fst pressed)) = true
  /\ hook (fst pressed) = hook app
  /\ snd pressed = [].
Proof. intros _. cbv zeta. repeat split. Qed.

Lemma press_replaces_gesture_previewing :
  let app := {| hook := seeded; calendar := previewingCalendar |} in
  let other := mkReservation "2"
                 (mkDraft "Appartement B" None (daysFromCivil 2025 1 18)
                    (daysFromCivil 2025 1 25) (Some "Séjour d'affaires")
                    (Some "#10B981")) in
  dragPhase (calendar app)
  = Previewing "1" martin (daysFromCivil 2025 2 10) (daysFromCivil 2025 2 15)
  /\ dragPhase (calendar (fst (handleReservationMouseDown other app))) = Armed "2" other
  /\ hook (fst (handleReservationMouseDown other app)) = seeded.
Proof.
  cbv zeta. split; [reflexivity|].
  pose proof (press_replaces_gesture
                {| hook := seeded; calendar := previewingCalendar |}
                (mkReservation "2"
                   (mkDraft "Appartement B" None (daysFromCivil 2025 1 18)
                      (daysFromCivil 2025 1 25) (Some "Séjour d'affaires")
                      (Some "#10B981")))
                (or_intror (ex_intro _ "1" (ex_intro _ martin
                   (ex_intro _ (daysFromCivil 2025 2 10)
                      (ex_intro _ (daysFromCivil 2025 2 15) eq_refl)))))) as H.
  cbv zeta in H. destruct H as (_ & Hphase & _ & Hhook & _).
  split; [exact Hphase|exact Hhook].
Defined.

(** C10.  [handleSaveDrag] on an [Armed] gesture, which holds no proposal,
    returns at once: no store mutation, no exception, no effect, same drag
    state. *)
Theorem commit_without_proposal_is_noop (policy : IntervalPolicy) (quotaLeft : bool)
    (app : App) (rid : string) (origin : Reservation) :
  dragPhase (calendar app) = Armed rid origin ->
  handleSaveDrag policy quotaLeft app = (app, [], Normal tt).
Proof.
  unfold dragPhase, handleSaveDrag.
  destruct (dragState (calendar app)) as [ds|]; [|discriminate].
  destruct (isActive ds), (newStartDate ds), (newEndDate ds); try discriminate.
  reflexivity.
Qed.

Lemma commit_without_proposal_is_noop_armed :
  let app := {| hook := seeded; calendar := armedCalendar |} in
  dragPhase (calendar app) = Armed "1" martin
  /\ handleSaveDrag SortEndpoints true app = (app, [], Normal tt)
  /\ handleSaveDrag RejectInverted false app = (app, [], Normal tt).
Proof.
  cbv zeta. split; [reflexivity|]. split.
  - exact (commit_without_proposal_is_noop SortEndpoints true
             {| hook := seeded; calendar := armedCalendar |} "1" martin eq_refl).
  - exact (commit_without_proposal_is_noop RejectInverted false
             {| hook := seeded; calendar := armedCalendar |} "1" martin eq_refl).
Defined.

(** ** The two-click selection gesture *)

Lemma handleDateClick_suppressed (date : Day) (app : App) :
  dragActive (calendar app) = true -> handleDateClick date app = (app, []).
Proof. intros H. unfold handleDateClick. now rewrite H. Qed.

(** C7, as amended.  While no drag preview is active: from [Idle] a pick
    sets the day as anchor and emits nothing; from [AnchorSet anchor] a pick
    emits [(min anchor day, max anchor day)] and returns to [Idle].  While a
    drag preview is active a pick is ignored.  From [AnchorSet anchor], with
    or without a drag, cancelling returns to [Idle] and emits nothing.  None
    of these touches the store. *)
Theorem selection_machine_transitions (app : App) (day : Day) :
  let picked := handleDateClick day app in
  let cancelled := cancelSelection app in
  (dragActive (calendar app) = false ->
     (selectionPhase (calendar app) = SelectionIdle ->
        selectionPhase (calendar (fst picked)) = AnchorSet day /\ snd picked = [])
     /\ (forall anchor, selectionPhase (calendar app) = AnchorSet anchor ->
           selectionPhase (calendar (fst picked)) = SelectionIdle
           /\ snd picked = [DateRangeSelect (Z.min anchor day) (Z.max anchor day)]))
  /\ (dragActive (calendar app) = true -> picked = (app, []))
  /\ (forall anchor, selectionPhase (calendar app) = AnchorSet anchor ->
        selectionPhase (calendar (fst cancelled)) = SelectionIdle
        /\ snd cancelled = [])
  /\ hook (fst picked) = hook app
  /\ hook (fst cancelled) = hook app.
Proof.
  cbv zeta. split; [|split; [|split; [|split]]].
  - intros Hdrag. unfold handleDateClick, selectionPhase. rewrite Hdrag.
    destruct (isSelecting (calendar app)); simpl.
    + destruct (fst (selectedRange (calendar app))) as [a|]; simpl.
      * split; [discriminate|].
        intros anchor [= <-]. split; [reflexivity|].
        unfold format. destruct (Z.leb_spec a day).
        -- now rewrite Z.min_l, Z.max_r by lia.
        -- now rewrite Z.min_r, Z.max_l by lia.
      * split; discriminate.
    + split; [auto|discriminate].
  - apply handleDateClick_suppressed.
  - intros anchor _. split; reflexivity.
  - unfold handleDateClick.
    destruct (dragActive (calendar app)); [reflexivity|].
    destruct (negb (isSelecting (calendar app))); [reflexivity|].
    destruct (fst (selectedRange (calendar app))); reflexivity.
  - reflexivity.
Qed.

Lemma selection_machine_transitions_two_clicks :
  let app := {| hook := seeded; calendar := idleCalendar |} in
  let first := handleDateClick (daysFromCivil 2025 3 9) app in
  let second := handleDateClick (daysFromCivil 2025 3 4) (fst first) in
  dragActive (calendar app) = false
  /\ selectionPhase (calendar (fst first)) = AnchorSet (daysFromCivil 2025 3 9)
  /\ snd second = [DateRangeSelect (daysFromCivil 2025 3 4) (daysFromCivil 2025 3 9)]
  /\ selectionPhase (calendar (fst second)) = SelectionIdle.
Proof.
  cbv zeta. split; [reflexivity|].
  pose proof (selection_machine_transitions
                {| hook := seeded; calendar := idleCalendar |}
                (daysFromCivil 2025 3 9)) as H1.
  cbv zeta in H1. destruct H1 as (Hpick & _).
  destruct (Hpick eq_refl) as (Hidle & _).
  destruct (Hidle eq_refl) as (Hanchor & _).
  split; [exact Hanchor|].
  pose proof (selection_machine_transitions
                (fst (handleDateClick (daysFromCivil 2025 3 9)
                        {| hook := seeded; calendar := idleCalendar |}))
                (daysFromCivil 2025 3 4)) as H2.
  cbv zeta in H2. destruct H2 as (Hpick2 & _).
  destruct (Hpick2 eq_refl) as (_ & Hset).
  destruct (Hset (daysFromCivil 2025 3 9) Hanchor) as (Hphase & Hemit).
  split; [exact Hemit|exact Hphase].
Defined.

(** C7 without the restriction fails while a drag preview is active: the
    click is dropped, so from [Idle] no anchor is set, and from [AnchorSet]
    nothing is emitted and the anchor stays. *)
Lemma pick_ignored_during_drag_preview :
  let app := {| hook := seeded; calendar := previewingCalendar |} in
  let anchored :=
    {| hook := seeded;
       calendar := setSelection previewingCalendar (Some (daysFromCivil 2025 3 9), None) true |} in
  let day := daysFromCivil 2025 3 4 in
  selectionPhase (calendar app) = SelectionIdle
  /\ selectionPhase (calendar (fst (handleDateClick day app))) = SelectionIdle
  /\ selectionPhase (calendar anchored) = AnchorSet (daysFromCivil 2025 3 9)
  /\ handleDateClick day anchored = (anchored, []).
Proof. cbv zeta. repeat split. Qed.

(** ** Conflict errors *)

Lemma some_throw_inv {A} (f : A -> completion bool) (l : list A) (e : Exn) :
  some f l = Throw e -> exists x, In x l /\ f x = Throw e.
Proof.
  induction l as [|x t IH]; simpl; [discriminate|].
  destruct (f x) as [[|]|e'] eqn:Hx; simpl.
  - discriminate.
  - intros H. destruct (IH H) as (y & Hy & Hfy). exists y. auto.
  - intros [= ->]. exists x. auto.
Qed.

Lemma isWithinInterval_throws (policy : IntervalPolicy) (date start end_ : Day) (e : Exn) :
  isWithinInterval policy date start end_ = Throw e -> e = RangeError "Invalid interval".
Proof.
  destruct policy; simpl; [|discriminate].
  destruct (start <=? end_); [discriminate|]. now intros [= <-].
Qed.

(** The only exception of [checkConflict] is the [RangeError] of date-fns. *)
Lemma checkConflict_throws (policy : IntervalPolicy) (rs : list Reservation)
    (candidate : ReservationDraft) (excludeId : option string) (e : Exn) :
  checkConflict policy rs candidate excludeId = Throw e ->
  e = RangeError "Invalid interval".
Proof.
  unfold checkConflict. intros H. apply some_throw_inv in H.
  destruct H as (r & _ & H). unfold overlapsExisting, orElse, bind in H.
  repeat match type of H with
    | context [match isWithinInterval ?p ?d ?s ?t with _ => _ end] =>
        let E := fresh "E" in
        destruct (isWithinInterval p d s t) as [[|]|?] eqn:E;
        try discriminate;
        try (injection H as <-; now apply isWithinInterval_throws in E)
    end.
  now apply isWithinInterval_throws in H.
Qed.

(** C8, as amended.  When [addReservation] or [updateReservation] is
    rejected for a conflict, the store is unchanged and the exception is the
    plain [Error] with the fixed message of the hook, whatever reservation is
    in the way; and this error is thrown for a conflict only. *)
Theorem conflict_error_is_generic (policy : IntervalPolicy) (now : N)
    (quotaLeft : bool) (draft : ReservationDraft) (rid : string)
    (updates : Updates.t) (st : HookState) :
  (checkConflict policy (reservations st) draft None = Normal true
   <-> addReservation policy now quotaLeft draft st = (st, Throw (Error conflictMessage)))
  /\ (forall existing,
        find (sameId rid) (reservations st) = Some existing ->
        (checkConflict policy (reservations st) (spread existing updates) (Some rid)
         = Normal true
         <-> updateReservation policy quotaLeft rid updates st
             = (st, Throw (Error conflictMessage)))).
Proof.
  unfold addReservation, updateReservation, saveReservations, setItem. split.
  - destruct (checkConflict policy (reservations st) draft None) as [[|]|e] eqn:Hchk.
    + tauto.
    + split; [discriminate|]. destruct quotaLeft; store_step; discriminate.
    + split; [discriminate|]. intros [= ->].
      apply checkConflict_throws in Hchk. discriminate.
  - intros existing ->.
    destruct (checkConflict policy (reservations st) (spread existing updates) (Some rid))
      as [[|]|e] eqn:Hchk.
    + tauto.
    + split; [discriminate|]. destruct quotaLeft; store_step; discriminate.
    + split; [discriminate|]. intros [= ->].
      apply checkConflict_throws in Hchk. discriminate.
Qed.

Lemma conflict_error_is_generic_touching :
  checkConflict SortEndpoints (reservations (storeOf [bookedA])) touchingA None
  = Normal true
  /\ addReservation SortEndpoints 1737000000000 true touchingA (storeOf [bookedA])
     = (storeOf [bookedA], Throw (Error conflictMessage)).
Proof.
  assert (H : checkConflict SortEndpoints (reservations (storeOf [bookedA])) touchingA None
              = Normal true) by reflexivity.
  split; [exact H|].
  exact (proj1 (proj1 (conflict_error_is_generic SortEndpoints 1737000000000 true
                         touchingA "100" Updates.empty (storeOf [bookedA]))) H).
Defined.

(** C8 with an identity in the error fails: the creation of one draft is
    rejected with one and the same exception in two stores whose only
    reservations have different ids, so no reading of the exception names
    the reservation in the way. *)
Lemma conflict_error_hides_reservation :
  snd (addReservation SortEndpoints 1737000000000 true touchingA (storeOf [bookedA]))
  = Throw (Error conflictMessage)
  /\ snd (addReservation SortEndpoints 1737000000000 true touchingA (storeOf [bookedA']))
     = Throw (Error conflictMessage)
  /\ map id (reservations (storeOf [bookedA])) = ["100"]
  /\ map id (reservations (storeOf [bookedA'])) = ["200"]
  /\ ~ errorNamesConflict SortEndpoints
  /\ ~ errorNamesConflict RejectInverted.
Proof.
  assert (Hno : forall policy, ~ errorNamesConflict policy).
  { intros policy (identify & H).
    destruct (H 1737000000000%N true touchingA (storeOf [bookedA])
                (Error conflictMessage))
      as (r1 & ([<-|[]] & _) & _ & H1);
      [destruct policy; reflexivity|destruct policy; reflexivity|].
    destruct (H 1737000000000%N true touchingA (storeOf [bookedA'])
                (Error conflictMessage))
      as (r2 & ([<-|[]] & _) & _ & H2);
      [destruct policy; reflexivity|destruct policy; reflexivity|].
    rewrite H1 in H2. discriminate H2. }
  split; [reflexivity|]. split; [reflexivity|]. split; [reflexivity|].
  split; [reflexivity|]. split; apply Hno.
Qed.

(** ** Updates without changes *)

Lemma spread_empty (r : Reservation) : spread r Updates.empty = r.
Proof. destruct r as [i [a c s e n col]]. reflexivity. Qed.

Lemma find_sameId {rid : string} {rs : list Reservation} {r : Reservation} :
  find (sameId rid) rs = Some r -> In r rs /\ id r = rid.
Proof.
  unfold find. intros H. apply find_some in H. destruct H as [Hin Hid].
  split; [exact Hin|]. now apply String.eqb_eq.
Qed.

(** C6, as amended.  In a store that satisfies the no-overlap invariant and
    whose reservations all have [startDate <= endDate], an update of a stored
    id with no change finds no conflict; it returns the stored reservation
    when the write succeeds and fails with the persistence error otherwise. *)
Theorem empty_update_never_conflicts (policy : IntervalPolicy) (quotaLeft : bool)
    (rid : string) (st : HookState) (existing : Reservation) :
  NoOverlap (reservations st) ->
  (forall r, In r (reservations st) -> wellFormed r) ->
  getReservation rid st = Some existing ->
  checkConflict policy (reservations st) (spread existing Updates.empty) (Some rid)
  = Normal false
  /\ snd (updateReservation policy quotaLeft rid Updates.empty st)
     = (if quotaLeft then Normal existing else Throw (Error saveErrorMessage))
  /\ snd (updateReservation policy quotaLeft rid Updates.empty st)
     <> Throw (Error conflictMessage).
Proof.
  intros Hinv Hwf Hget. unfold getReservation in Hget.
  destruct (find_sameId Hget) as [Hin Hid].
  assert (Hchk : checkConflict policy (reservations st)
                   (spread existing Updates.empty) (Some rid) = Normal false).
  { rewrite spread_empty.
    rewrite checkConflict_ordered.
    - f_equal. apply not_true_is_false. intros H.
      apply existsb_exists in H. destruct H as (r & Hr & Ho).
      apply compared_filter in Hr. destruct Hr as (Hr & Hne & Hap).
      rewrite Hinv in Ho; [discriminate|assumption|assumption| |now symmetry].
      intros ->. apply Hne. now rewrite Hid.
    - now apply Hwf.
    - intros r (Hr & _). now apply Hwf. }
  assert (Hrun : snd (updateReservation policy quotaLeft rid Updates.empty st)
                 = (if quotaLeft then Normal existing
                    else Throw (Error saveErrorMessage))).
  { unfold updateReservation. rewrite Hget, Hchk.
    unfold saveReservations, setItem, recolor. rewrite spread_empty.
    destruct quotaLeft; reflexivity. }
  split; [exact Hchk|]. split; [exact Hrun|].
  rewrite Hrun. destruct quotaLeft; discriminate.
Qed.

Lemma empty_update_never_conflicts_seeded :
  NoOverlap (reservations seeded)
  /\ snd (updateReservation RejectInverted true "1" Updates.empty seeded) = Normal martin
  /\ snd (updateReservation SortEndpoints true "1" Updates.empty seeded) = Normal martin.
Proof.
  pose proof NoOverlap_defaultReservations as Hinv.
  assert (Hwf : forall r, In r (reservations seeded) -> wellFormed r).
  { intros r [<-|[<-|[<-|[]]]]; vm_compute; discriminate. }
  assert (Hget : getReservation "1" seeded = Some martin) by reflexivity.
  split; [exact Hinv|]. split.
  - exact (proj1 (proj2
      (empty_update_never_conflicts RejectInverted true "1" seeded martin Hinv Hwf Hget))).
  - exact (proj1 (proj2
      (empty_update_never_conflicts SortEndpoints true "1" seeded martin Hinv Hwf Hget))).
Defined.

(** C6 without the order of dates fails on a store that satisfies the
    invariant but holds a reservation whose end precedes its start: January
    10 to January 1 and January 8 to January 12 do not overlap in the sense
    of the invariant, yet the start day of the first lies within the second,
    and the update without changes of the first is rejected as a conflict. *)
Lemma empty_update_conflicts_on_inverted_dates :
  NoOverlap [invertedA; wideA]
  /\ updateReservation RejectInverted true "101" Updates.empty (storeOf [invertedA; wideA])
     = (storeOf [invertedA; wideA], Throw (Error conflictMessage))
  /\ updateReservation SortEndpoints true "101" Updates.empty (storeOf [invertedA; wideA])
     = (storeOf [invertedA; wideA], Throw (Error conflictMessage)).
Proof.
  split; [|split; reflexivity].
  intros a b Ha Hb Hne _. simpl in Ha, Hb.
  destruct Ha as [<-|[<-|[]]], Hb as [<-|[<-|[]]];
    try (now elim Hne); reflexivity.
Qed.

(** ** Committing a drag *)

Lemma find_replace_same (rid : string) (m : Reservation) (rs : list Reservation)
    (existing : Reservation) :
  find (sameId rid) rs = Some existing -> id m = rid ->
  find (sameId rid) (map (fun r => if sameId rid r then m else r) rs) = Some m.
Proof.
  unfold find. intros Hf Hm. induction rs as [|a t IH]; simpl in *; [discriminate|].
  destruct (sameId rid a) eqn:Ea.
  - unfold sameId at 1. now rewrite Hm, String.eqb_refl.
  - rewrite Ea. now apply IH.
Qed.

Lemma find_replace_other (rid other : string) (m : Reservation) (rs : list Reservation) :
  other <> rid -> id m = rid ->
  find (sameId other) (map (fun r => if sameId rid r then m else r) rs)
  = find (sameId other) rs.
Proof.
  unfold find. intros Hne Hm. induction rs as [|a t IH]; simpl; [reflexivity|].
  destruct (sameId rid a) eqn:Ea.
  - unfold sameId in Ea. apply String.eqb_eq in Ea.
    assert (Hm' : sameId other m = false).
    { unfold sameId. rewrite Hm. apply String.eqb_neq. congruence. }
    assert (Ha' : sameId other a = false).
    { unfold sameId. rewrite Ea. apply String.eqb_neq. congruence. }
    rewrite Hm', Ha'. exact IH.
  - destruct (sameId other a); [reflexivity|exact IH].
Qed.

(** C4, as amended.  Commit from [Previewing], the origin of the drag being
    the stored reservation of the dragged id.  If the proposed range
    conflicts, nothing changes but a notice: same store, still [Previewing].
    If it does not, the machine returns to [Idle]; when the write to the
    storage succeeds, the stored reservation of that id is the origin with
    exactly the proposed dates (same id, apartment, client name, notes) and
    every reservation of another id is as before; when the write fails, the
    store is as before and the failure is reported. *)
Theorem commit_from_previewing (policy : IntervalPolicy) (quotaLeft : bool)
    (app : App) (rid : string) (origin : Reservation)
    (proposedStart proposedEnd : Day) (candidate : ReservationDraft) :
  dragPhase (calendar app) = Previewing rid origin proposedStart proposedEnd ->
  getReservation rid (hook app) = Some origin ->
  apartment candidate = apartment origin ->
  startDate candidate = proposedStart ->
  endDate candidate = proposedEnd ->
  let committed := handleSaveDrag policy quotaLeft app in
  let app' := fst (fst committed) in
  let target := moved origin proposedStart proposedEnd in
  (checkConflict policy (reservations (hook app)) candidate (Some rid) = Normal true ->
     committed = (app, [Alert conflictAlert], Normal tt))
  /\ (checkConflict policy (reservations (hook app)) candidate (Some rid) = Normal false ->
        dragPhase (calendar app') = DragIdle
        /\ snd committed = Normal tt
        /\ (quotaLeft = true ->
              reservations (hook app')
              = map (fun r => if sameId rid r then target else r) (reservations (hook app))
              /\ stored (hook app') = Some (reservations (hook app'))
              /\ getReservation rid (hook app') = Some target
              /\ (forall other, other <> rid ->
                    getReservation other (hook app') = getReservation other (hook app))
              /\ snd (fst committed) = [])
        /\ (quotaLeft = false ->
              reservations (hook app') = reservations (hook app)
              /\ stored (hook app') = stored (hook app)
              /\ snd (fst committed) = [ConsoleError updateErrorLog; Alert saveErrorMessage]))
  /\ (id target = id origin /\ apartment target = apartment origin
      /\ clientName target = clientName origin /\ notes target = notes origin
      /\ startDate target = proposedStart /\ endDate target = proposedEnd).
Proof.
  intros Hphase Hget Hap Hs He. cbv zeta.
  unfold dragPhase in Hphase.
  destruct (dragState (calendar app)) as [ds|] eqn:Hds; [|discriminate].
  destruct (isActive ds), (newStartDate ds) as [s|] eqn:Hns,
    (newEndDate ds) as [e|] eqn:Hne; try discriminate.
  injection Hphase as Hrid Horigin <- <-.
  assert (Hchk : checkConflict policy (reservations (hook app)) candidate (Some rid)
                 = checkConflict policy (reservations (hook app))
                     (moved origin s e) (Some rid)).
  { apply checkConflict_fields; simpl; assumption. }
  rewrite Hchk. clear Hchk.
  unfold handleSaveDrag. rewrite Hds, Hns, Hne, Hrid, Horigin.
  fold (moved origin s e).
  split; [|split].
  - intros ->. reflexivity.
  - intros Hfree. rewrite Hfree.
    unfold handleReservationUpdate, updateReservation.
    unfold getReservation in Hget. rewrite Hget.
    fold (moved origin s e). rewrite Hfree.
    unfold recolor, saveReservations, setItem. cbn [Updates.apartment].
    destruct (find_sameId Hget) as [_ Hid].
    destruct quotaLeft; cbn [fst snd bind hook calendar reservations stored].
    + split; [reflexivity|]. split; [reflexivity|]. split; [|discriminate].
      intros _. split; [reflexivity|]. split; [reflexivity|]. split; [|split].
      * unfold getReservation. cbn [reservations].
        now apply (find_replace_same rid (moved origin s e) _ origin).
      * intros other Hother. unfold getReservation. cbn [reservations].
        now apply find_replace_other.
      * reflexivity.
    + split; [reflexivity|]. split; [reflexivity|]. split; [discriminate|].
      intros _. repeat split.
  - repeat split.
Qed.

Lemma commit_from_previewing_seeded :
  dragPhase (calendar previewingApp)
  = Previewing "1" martin (daysFromCivil 2025 2 10) (daysFromCivil 2025 2 15)
  /\ checkConflict SortEndpoints (reservations (hook previewingApp)) proposalA (Some "1")
     = Normal false
  /\ dragPhase (calendar (fst (fst (handleSaveDrag SortEndpoints true previewingApp))))
     = DragIdle
  /\ getReservation "1" (hook (fst (fst (handleSaveDrag SortEndpoints true previewingApp))))
     = Some (moved martin (daysFromCivil 2025 2 10) (daysFromCivil 2025 2 15)).
Proof.
  assert (Hphase : dragPhase (calendar previewingApp)
                   = Previewing "1" martin (daysFromCivil 2025 2 10)
                       (daysFromCivil 2025 2 15)) by reflexivity.
  assert (Hfree : checkConflict SortEndpoints (reservations (hook previewingApp))
                    proposalA (Some "1") = Normal false) by reflexivity.
  pose proof (commit_from_previewing SortEndpoints true previewingApp "1" martin
                (daysFromCivil 2025 2 10) (daysFromCivil 2025 2 15) proposalA
                Hphase eq_refl eq_refl eq_refl eq_refl) as H.
  cbv zeta in H. destruct H as (_ & H & _).
  destruct (H Hfree) as (Hidle & _ & Hok & _).
  destruct (Hok eq_refl) as (_ & _ & Hget & _).
  split; [exact Hphase|]. split; [exact Hfree|]. split; [exact Hidle|exact Hget].
Defined.

(** C4 without a successful write fails: the proposed range is free, the
    storage refuses the write, the update throws inside
    [onReservationUpdate], App catches and reports it, and the component
    drops the drag state all the same; the stored reservation keeps its old
    dates while the machine is back in [Idle]. *)
Lemma commit_lost_when_write_fails :
  dragPhase (calendar previewingApp)
  = Previewing "1" martin (daysFromCivil 2025 2 10) (daysFromCivil 2025 2 15)
  /\ getReservation "1" (hook previewingApp) = Some martin
  /\ startDate martin <> daysFromCivil 2025 2 10
  /\ (checkConflict SortEndpoints (reservations (hook previewingApp)) proposalA (Some "1")
      = Normal false
      /\ dragPhase (calendar (fst (fst (handleSaveDrag SortEndpoints false previewingApp))))
         = DragIdle
      /\ getReservation "1" (hook (fst (fst (handleSaveDrag SortEndpoints false previewingApp))))
         = Some martin)
  /\ (checkConflict RejectInverted (reservations (hook previewingApp)) proposalA (Some "1")
      = Normal false
      /\ dragPhase (calendar (fst (fst (handleSaveDrag RejectInverted false previewingApp))))
         = DragIdle
      /\ getReservation "1" (hook (fst (fst (handleSaveDrag RejectInverted false previewingApp))))
         = Some martin).
Proof.
  split; [reflexivity|]. split; [reflexivity|]. split; [vm_compute; discriminate|].
  split; repeat split.
Qed.

(** * Further properties of the code *)

(** ** The store: outcomes of mutations *)

Lemma deleteReservation_ok (quotaLeft : bool) (rid : string) (st st' : HookState)
    (v : unit) :
  deleteReservation quotaLeft rid st = (st', Normal v) ->
  quotaLeft = true
  /\ reservations st' = filter (fun r => negb (sameId rid r)) (reservations st).
Proof.
  unfold deleteReservation. intros H. apply saveReservations_ok in H. tauto.
Qed.

Lemma saveReservations_cases (quotaLeft : bool) (news : list Reservation)
    (st : HookState) :
  saveReservations quotaLeft news st
  = (if quotaLeft
     then ({| reservations := news; apartments := apartments st;
              error := None; stored := Some news |}, Normal tt)
     else ({| reservations := reservations st; apartments := apartments st;
              error := Some saveErrorState; stored := stored st |},
           Throw (Error saveErrorMessage))).
Proof. destruct quotaLeft; reflexivity. Qed.

(** X1.  Every mutation is all or nothing.  When [addReservation],
    [updateReservation] or [deleteReservation] throws, for whatever reason,
    the in-memory collection, the stored one and the apartments are as
    before; when it returns, the stored collection is the in-memory one and
    the error flag is cleared. *)
Theorem mutations_settle (policy : IntervalPolicy) (now : N) (quotaLeft : bool)
    (draft : ReservationDraft) (rid : string) (updates : Updates.t)
    (st : HookState) :
  settled st (addReservation policy now quotaLeft draft st)
  /\ settled st (updateReservation policy quotaLeft rid updates st)
  /\ settled st (deleteReservation quotaLeft rid st).
Proof.
  unfold settled, addReservation, updateReservation, deleteReservation.
  split; [|split].
  - destruct (checkConflict policy (reservations st) draft None) as [[|]|e];
      store_step; auto.
    rewrite saveReservations_cases. destruct quotaLeft; store_step; auto.
  - destruct (find (sameId rid) (reservations st)) as [existing|];
      store_step; auto.
    destruct (checkConflict policy (reservations st) (spread existing updates) (Some rid))
      as [[|]|e]; store_step; auto.
    rewrite saveReservations_cases. destruct quotaLeft; store_step; auto.
  - rewrite saveReservations_cases. destruct quotaLeft; store_step; auto.
Qed.


(** ** The store: lookups after a mutation *)

Lemma find_app {A} (f : A -> bool) (l l' : list A) :
  find f (l ++ l')
  = match find f l with
    | Some x => Some x
    | None => find f l'
    end.
Proof.
  unfold find. induction l as [|a t IH]; simpl; [reflexivity|].
  destruct (f a); [reflexivity|exact IH].
Qed.

Lemma find_absent {rid : string} {rs : list Reservation} :
  find (sameId rid) rs = None <-> forall r, In r rs -> id r <> rid.
Proof.
  unfold find. split.
  - intros H r Hr E. apply (find_none _ _ H) in Hr.
    unfold sameId in Hr. rewrite E, String.eqb_refl in Hr. discriminate.
  - intros H. induction rs as [|a t IH]; simpl; [reflexivity|].
    destruct (sameId rid a) eqn:Ea.
    + unfold sameId in Ea. apply String.eqb_eq in Ea.
      now elim (H a (or_introl eq_refl)).
    + apply IH. intros r Hr. apply H. now right.
Qed.

Lemma sameId_other (rid other : string) (r : Reservation) :
  other <> rid -> sameId rid r = true -> sameId other r = false.
Proof.
  unfold sameId. intros Hne H. apply String.eqb_eq in H.
  apply String.eqb_neq. congruence.
Qed.

Lemma find_filter_removed (rid : string) (rs : list Reservation) :
  find (sameId rid) (filter (fun r => negb (sameId rid r)) rs) = None.
Proof.
  apply find_absent. intros r Hr. apply filter_In in Hr. destruct Hr as [_ Hr].
  intros E. unfold sameId in Hr. now rewrite E, String.eqb_refl in Hr.
Qed.

Lemma find_filter_kept (rid other : string) (rs : list Reservation) :
  other <> rid ->
  find (sameId other) (filter (fun r => negb (sameId rid r)) rs)
  = find (sameId other) rs.
Proof.
  unfold find. intros Hne. induction rs as [|a t IH]; simpl; [reflexivity|].
  destruct (sameId rid a) eqn:Ea; simpl.
  - now rewrite (sameId_other rid other a Hne Ea).
  - destruct (sameId other a); [reflexivity|exact IH].
Qed.

Lemma filter_nothing_removed (rid : string) (rs : list Reservation) :
  find (sameId rid) rs = None -> filter (fun r => negb (sameId rid r)) rs = rs.
Proof.
  unfold find. induction rs as [|a t IH]; simpl; [reflexivity|].
  destruct (sameId rid a); simpl; [discriminate|].
  intros H. now rewrite IH.
Qed.

(** X3.  A deletion that returns has removed every reservation of the id
    and nothing else: the id is no longer found, every other id is found as
    before, and the collection keeps exactly the reservations of other ids.
    For an id that was not stored the collection is as before. *)
Theorem deleteReservation_removes_id (quotaLeft : bool) (rid : string)
    (st st' : HookState) (v : unit) :
  deleteReservation quotaLeft rid st = (st', Normal v) ->
  getReservation rid st' = None
  /\ (forall other, other <> rid -> getReservation other st' = getReservation other st)
  /\ (forall r, In r (reservations st') <-> In r (reservations st) /\ id r <> rid)
  /\ (getReservation rid st = None -> reservations st' = reservations st).
Proof.
  intros H. apply deleteReservation_ok in H. destruct H as [_ Hrs].
  unfold getReservation. rewrite Hrs. split; [|split; [|split]].
  - apply find_filter_removed.
  - intros other Hne. now apply find_filter_kept.
  - intros r. rewrite filter_In. unfold sameId.
    rewrite negb_true_iff, String.eqb_neq. tauto.
  - apply filter_nothing_removed.
Qed.

Lemma deleteReservation_removes_id_seeded :
  deleteReservation true "2" seeded
  = (storeOf (filter (fun r => negb (sameId "2" r)) defaultReservations), Normal tt)
  /\ getReservation "2" (fst (deleteReservation true "2" seeded)) = None
  /\ getReservation "1" (fst (deleteReservation true "2" seeded)) = Some martin.
Proof.
  assert (H : deleteReservation true "2" seeded
              = (storeOf (filter (fun r => negb (sameId "2" r)) defaultReservations),
                 Normal tt)) by reflexivity.
  split; [exact H|]. rewrite H.
  destruct (deleteReservation_removes_id true "2" seeded _ tt H) as (Hgone & Hkept & _).
  split; [exact Hgone|]. rewrite Hkept; [reflexivity|discriminate].
Defined.

(** X4.  A creation that returns gives back the draft with the id read off
    the clock and the colour resolved from the apartments, appended at the
    end of the collection.  Looking the new id up yields the new reservation
    when the id was not in use, and still the older reservation when it
    was; every other id is found as before. *)
Theorem addReservation_round_trip (policy : IntervalPolicy) (now : N)
    (quotaLeft : bool) (draft : ReservationDraft) (st st' : HookState)
    (r : Reservation) :
  addReservation policy now quotaLeft draft st = (st', Normal r) ->
  reservations st' = (reservations st ++ [r])%list
  /\ id r = toString now
  /\ apartment r = apartment draft /\ clientName r = clientName draft
  /\ startDate r = startDate draft /\ endDate r = endDate draft
  /\ notes r = notes draft
  /\ color r = Some (colorOf (apartments st) (apartment draft))
  /\ (getReservation (id r) st = None -> getReservation (id r) st' = Some r)
  /\ (forall old, getReservation (id r) st = Some old ->
        getReservation (id r) st' = Some old)
  /\ (forall other, other <> id r -> getReservation other st' = getReservation other st).
Proof.
  intros H. apply addReservation_ok in H. destruct H as (_ & _ & Hr & Hrs).
  unfold getReservation. rewrite Hrs, !find_app. subst r. simpl.
  repeat split.
  - intros ->. unfold find. simpl. unfold sameId. simpl.
    now rewrite String.eqb_refl.
  - intros old ->. reflexivity.
  - intros other Hne. rewrite find_app.
    destruct (find (sameId other) (reservations st)); [reflexivity|].
    unfold find. simpl. unfold sameId. simpl.
    destruct (String.eqb_spec (toString now) other) as [E|_]; [|reflexivity].
    now elim Hne.
Qed.

Lemma addReservation_round_trip_seeded :
  snd (addReservation SortEndpoints 1737000000000 true februaryA seeded)
  = Normal (mkReservation "1737000000000" (withColor februaryA "#3B82F6"))
  /\ getReservation "1737000000000"
       (fst (addReservation SortEndpoints 1737000000000 true februaryA seeded))
     = Some (mkReservation "1737000000000" (withColor februaryA "#3B82F6")).
Proof.
  assert (H : addReservation SortEndpoints 1737000000000 true februaryA seeded
              = (fst (addReservation SortEndpoints 1737000000000 true februaryA seeded),
                 Normal (mkReservation "1737000000000" (withColor februaryA "#3B82F6"))))
    by (vm_compute; reflexivity).
  split; [now rewrite H|].
  destruct (addReservation_round_trip _ _ _ _ _ _ _ H)
    as (_ & _ & _ & _ & _ & _ & _ & _ & Hnew & _).
  apply Hnew. reflexivity.
Defined.

(** ** The store: identities *)

Lemma toString_inj (n m : N) : toString n = toString m -> n = m.
Proof.
  unfold toString. intros H.
  apply DecimalN.Unsigned.to_uint_inj.
  pose proof (NilEmpty.usu (N.to_uint n)) as Hn.
  pose proof (NilEmpty.usu (N.to_uint m)) as Hm.
  rewrite H in Hn. congruence.
Qed.

Lemma map_id_replace (rid : string) (r : Reservation) (rs : list Reservation) :
  id r = rid ->
  map id (map (fun x => if sameId rid x then r else x) rs) = map id rs.
Proof.
  intros Hr. rewrite map_map. apply map_ext. intros x.
  destruct (sameId rid x) eqn:Ex; [|reflexivity].
  unfold sameId in Ex. apply String.eqb_eq in Ex. congruence.
Qed.

Lemma NoDup_map_filter {A B} (f : A -> B) (keep : A -> bool) (l : list A) :
  NoDup (map f l) -> NoDup (map f (filter keep l)).
Proof.
  induction l as [|a t IH]; simpl; [auto|].
  intros H. inversion H as [|? ? Hnotin Hrest]; subst.
  destruct (keep a); simpl; [|now apply IH].
  constructor; [|now apply IH].
  intros Hin. apply Hnotin. apply in_map_iff in Hin.
  destruct Hin as (x & Hx & Hin). apply filter_In in Hin.
  apply in_map_iff. exists x. tauto.
Qed.

(** X5.  Ids stay unique as long as the clock moves.  In a collection
    without repeated ids: a creation that returns keeps the ids unique
    exactly when the id read off the clock is not in use; an update that
    returns keeps the sequence of ids as it is; a deletion that returns
    keeps the ids unique.  Different clock readings give different ids. *)
Theorem unique_ids_preserved (policy : IntervalPolicy) (st : HookState) :
  UniqueIds (reservations st) ->
  (forall now quotaLeft draft st' r,
      addReservation policy now quotaLeft draft st = (st', Normal r) ->
      (UniqueIds (reservations st')
       <-> forall x, In x (reservations st) -> id x <> toString now))
  /\ (forall quotaLeft rid updates st' r,
         updateReservation policy quotaLeft rid updates st = (st', Normal r) ->
         map id (reservations st') = map id (reservations st)
         /\ UniqueIds (reservations st'))
  /\ (forall quotaLeft rid st' v,
         deleteReservation quotaLeft rid st = (st', Normal v) ->
         UniqueIds (reservations st'))
  /\ (forall n m, toString n = toString m -> n = m).
Proof.
  unfold UniqueIds. intros Huniq. split; [|split; [|split]].
  - intros now quotaLeft draft st' r H.
    apply addReservation_ok in H. destruct H as (_ & _ & Hr & ->).
    rewrite map_app. subst r. simpl. split.
    + intros H x Hx E. apply NoDup_remove_2 in H. apply H.
      rewrite app_nil_r. apply in_map_iff. exists x. tauto.
    + intros H. apply NoDup_app; [exact Huniq|repeat constructor; intros []|].
      intros i Hi [<-|[]]. apply in_map_iff in Hi.
      destruct Hi as (x & Ex & Hx). now apply (H x Hx).
  - intros quotaLeft rid updates st' r H.
    apply updateReservation_ok in H.
    destruct H as (existing & Hf & _ & _ & Hr & ->).
    assert (Hid : id r = rid).
    { destruct (recolor_fields (apartments st) updates (spread existing updates))
        as (E & _).
      rewrite <- Hr in E. rewrite E. simpl. exact (proj2 (find_sameId Hf)). }
    rewrite (map_id_replace rid r _ Hid). auto.
  - intros quotaLeft rid st' v H. apply deleteReservation_ok in H.
    destruct H as [_ ->]. now apply NoDup_map_filter.
  - exact toString_inj.
Qed.

Lemma UniqueIds_defaultReservations : UniqueIds defaultReservations.
Proof.
  unfold UniqueIds. simpl. repeat constructor; simpl; intuition discriminate.
Qed.

Lemma unique_ids_preserved_seeded :
  UniqueIds (reservations seeded)
  /\ UniqueIds
       (reservations (fst (addReservation SortEndpoints 1737000000000 true februaryA seeded))).
Proof.
  pose proof UniqueIds_defaultReservations as H0.
  split; [exact H0|].
  assert (Hadd : addReservation SortEndpoints 1737000000000 true februaryA seeded
              = (fst (addReservation SortEndpoints 1737000000000 true februaryA seeded),
                 Normal (mkReservation "1737000000000" (withColor februaryA "#3B82F6"))))
    by (vm_compute; reflexivity).
  apply (proj2 (proj1 (unique_ids_preserved SortEndpoints seeded H0) _ _ _ _ _ Hadd)).
  intros x [<-|[<-|[<-|[]]]]; discriminate.
Defined.

(** ** The store: updates, colours, apartments *)



(** X7.  Reservations of other apartments never matter to [checkConflict]:
    the answer is the one for the stored reservations of the candidate's
    apartment alone, and it is [false], without any exception, when no
    stored reservation of that apartment is left after the exclusion,
    whatever the dates of the others. *)
Theorem checkConflict_other_apartments (policy : IntervalPolicy)
    (rs : list Reservation) (candidate : ReservationDraft)
    (excludeId : option string) :
  checkConflict policy rs candidate excludeId
  = checkConflict policy
      (filter (fun r : Reservation => String.eqb (apartment r) (apartment candidate)) rs)
      candidate excludeId
  /\ ((forall r, In r rs -> Some (id r) <> excludeId ->
         apartment r <> apartment candidate) ->
      checkConflict policy rs candidate excludeId = Normal false).
Proof.
  split.
  - unfold checkConflict. f_equal.
    induction rs as [|a t IH]; simpl; [reflexivity|].
    destruct (String.eqb (apartment a) (apartment candidate)) eqn:Eap; simpl.
    + rewrite Eap, IH. reflexivity.
    + rewrite andb_false_r. exact IH.
  - intros H. apply some_false_iff. intros r Hr.
    apply compared_filter in Hr. destruct Hr as (Hin & Hid & Hap).
    now elim (H r Hin Hid).
Qed.

Lemma checkConflict_other_apartments_seeded :
  checkConflict RejectInverted (invertedA :: defaultReservations)
    (mkDraft "Appartement E" None (daysFromCivil 2025 1 1) (daysFromCivil 2025 1 31)
       None None) None
  = Normal false.
Proof.
  apply (proj2 (checkConflict_other_apartments RejectInverted
                  (invertedA :: defaultReservations)
                  (mkDraft "Appartement E" None (daysFromCivil 2025 1 1)
                     (daysFromCivil 2025 1 31) None None) None)).
  intros r [<-|[<-|[<-|[<-|[]]]]] _; discriminate.
Defined.

(** X8.  The store does not check the order of the two dates.  In a
    collection whose reservations all end after they start: after a creation
    that returns, all still do exactly when the draft does; after an update
    that returns, exactly when the returned reservation does; after a
    deletion that returns, always. *)
Theorem ordered_dates_preserved (policy : IntervalPolicy) (st : HookState) :
  AllOrdered (reservations st) ->
  (forall now quotaLeft draft st' r,
      addReservation policy now quotaLeft draft st = (st', Normal r) ->
      (AllOrdered (reservations st') <-> startDate draft < endDate draft))
  /\ (forall quotaLeft rid updates st' r,
         updateReservation policy quotaLeft rid updates st = (st', Normal r) ->
         (AllOrdered (reservations st') <-> startDate r < endDate r))
  /\ (forall quotaLeft rid st' v,
         deleteReservation quotaLeft rid st = (st', Normal v) ->
         AllOrdered (reservations st')).
Proof.
  unfold AllOrdered. intros Hord. split; [|split].
  - intros now quotaLeft draft st' r H.
    apply addReservation_ok in H. destruct H as (_ & _ & Hr & ->). split.
    + intros H. assert (Hin : In r (reservations st ++ [r])).
      { apply in_or_app. right. now left. }
      specialize (H r Hin). subst r. exact H.
    + intros H x Hx. apply in_app_or in Hx. destruct Hx as [Hx|[<-|[]]].
      * now apply Hord.
      * subst r. exact H.
  - intros quotaLeft rid updates st' r H.
    apply updateReservation_ok in H.
    destruct H as (existing & Hf & _ & _ & _ & ->). split.
    + intros H. apply H. apply in_map_iff. exists existing.
      destruct (find_sameId Hf) as [Hin Hid]. split; [|exact Hin].
      unfold sameId. now rewrite Hid, String.eqb_refl.
    + intros H x Hx. apply in_map_iff in Hx. destruct Hx as (x0 & <- & Hx).
      destruct (sameId rid x0); [exact H|now apply Hord].
  - intros quotaLeft rid st' v H. apply deleteReservation_ok in H.
    destruct H as [_ ->]. intros x Hx. apply filter_In in Hx. now apply Hord.
Qed.

Lemma AllOrdered_defaultReservations : AllOrdered defaultReservations.
Proof. intros r [<-|[<-|[<-|[]]]]; vm_compute; reflexivity. Qed.

Lemma ordered_dates_preserved_seeded :
  AllOrdered (reservations seeded)
  /\ AllOrdered
       (reservations (fst (addReservation SortEndpoints 1737000000000 true februaryA seeded))).
Proof.
  pose proof AllOrdered_defaultReservations as H0.
  split; [exact H0|].
  assert (Hadd : addReservation SortEndpoints 1737000000000 true februaryA seeded
              = (fst (addReservation SortEndpoints 1737000000000 true februaryA seeded),
                 Normal (mkReservation "1737000000000" (withColor februaryA "#3B82F6"))))
    by (vm_compute; reflexivity).
  apply (proj2 (proj1 (ordered_dates_preserved SortEndpoints seeded H0) _ _ _ _ _ Hadd)).
  vm_compute. reflexivity.
Defined.

(** ** The loading effect *)

Lemma loadItem_some {A} (quotaLeft : bool) (defaults v : A) (slot slot' : Slot A) :
  loadItem quotaLeft defaults slot = Some (v, slot') ->
  slot' = Json v
  /\ (slot = Json v \/ ((slot = Absent \/ slot = Blank) /\ quotaLeft = true /\ v = defaults)).
Proof.
  destruct slot as [| |w|]; simpl; try discriminate.
  - destruct quotaLeft; [|discriminate]. intros [= <- <-]. auto 6.
  - destruct quotaLeft; [|discriminate]. intros [= <- <-]. auto 6.
  - intros [= <- <-]. auto.
Qed.

(** X9.  The loading effect ends in one of two states, with the loading
    flag off in both: a clean one, where the error flag is off and each
    storage slot holds exactly the collection in memory; or the fallback,
    where the error flag is on and memory holds the default reservations and
    the default apartments. *)
Theorem loadEffect_clean_or_defaults (quotaReservations quotaApartments : bool)
    (ls : LocalStorage) :
  let m := loadEffect quotaReservations quotaApartments ls in
  loading m = false
  /\ ((error (loaded m) = None
       /\ reservationsItem (storage m) = Json (reservations (loaded m))
       /\ apartmentsItem (storage m) = Json (apartments (loaded m))
       /\ stored (loaded m) = Some (reservations (loaded m)))
      \/ (error (loaded m) = Some loadErrorState
          /\ reservations (loaded m) = defaultReservations
          /\ apartments (loaded m) = defaultApartments)).
Proof.
  cbv zeta. unfold loadEffect.
  destruct (loadItem quotaReservations defaultReservations (reservationsItem ls))
    as [[rs slotR]|] eqn:HR; [|simpl; auto].
  destruct (loadItem quotaApartments defaultApartments (apartmentsItem ls))
    as [[apts slotA]|] eqn:HA; [|simpl; auto].
  apply loadItem_some in HR, HA. destruct HR as [-> _], HA as [-> _].
  simpl. auto 6.
Qed.

(** X10.  The loading effect never overwrites what it finds: a slot that
    holds a string, parsable or not, is left as it is; only a missing or
    empty slot is seeded with the defaults.  A slot that cannot be parsed
    makes memory fall back to both defaults, so an unreadable apartments
    slot hides reservations that were stored and readable. *)
Theorem loadEffect_keeps_stored_strings (quotaReservations quotaApartments : bool)
    (ls : LocalStorage) :
  let m := loadEffect quotaReservations quotaApartments ls in
  (forall v, reservationsItem ls = Json v -> reservationsItem (storage m) = Json v)
  /\ (forall v, apartmentsItem ls = Json v -> apartmentsItem (storage m) = Json v)
  /\ (reservationsItem ls = Unparsable -> storage m = ls)
  /\ (apartmentsItem ls = Unparsable -> apartmentsItem (storage m) = Unparsable)
  /\ (reservationsItem ls = Unparsable \/ apartmentsItem ls = Unparsable ->
        reservations (loaded m) = defaultReservations
        /\ apartments (loaded m) = defaultApartments
        /\ error (loaded m) = Some loadErrorState)
  /\ (reservationsItem (storage m) = reservationsItem ls
      \/ reservationsItem (storage m) = Json defaultReservations)
  /\ (apartmentsItem (storage m) = apartmentsItem ls
      \/ apartmentsItem (storage m) = Json defaultApartments).
Proof.
  cbv zeta. unfold loadEffect, loadFailed.
  destruct ls as [slotR slotA]. simpl.
  destruct slotR as [| |rs|], slotA as [| |apts|],
    quotaReservations, quotaApartments; simpl;
    intuition (try discriminate; try congruence).
Qed.

Lemma loadEffect_keeps_stored_strings_hidden :
  let ls := {| reservationsItem := Json [bookedA]; apartmentsItem := Unparsable |} in
  reservations (loaded (loadEffect true true ls)) = defaultReservations
  /\ storage (loadEffect true true ls) = ls.
Proof.
  cbv zeta.
  destruct (loadEffect_keeps_stored_strings true true
              {| reservationsItem := Json [bookedA]; apartmentsItem := Unparsable |})
    as (_ & _ & _ & _ & Hdef & _).
  split; [|reflexivity].
  exact (proj1 (Hdef (or_intror eq_refl))).
Defined.

Lemma normal_return_is_stored (policy : IntervalPolicy) (now : N) (quotaLeft : bool)
    (draft : ReservationDraft) (rid : string) (updates : Updates.t)
    (st st' : HookState) :
  (exists r, addReservation policy now quotaLeft draft st = (st', Normal r))
  \/ (exists r, updateReservation policy quotaLeft rid updates st = (st', Normal r))
  \/ (exists v, deleteReservation quotaLeft rid st = (st', Normal v)) ->
  st' = {| reservations := reservations st'; apartments := apartments st;
           error := None; stored := Some (reservations st') |}.
Proof.
  unfold addReservation, updateReservation, deleteReservation.
  intros [(r & H)|[(r & H)|(v & H)]].
  - destruct (checkConflict policy (reservations st) draft None) as [[|]|e];
      try discriminate.
    rewrite saveReservations_cases in H.
    destruct quotaLeft; [|discriminate]. now injection H as <- _.
  - destruct (find (sameId rid) (reservations st)) as [existing|]; [|discriminate].
    destruct (checkConflict policy (reservations st) (spread existing updates) (Some rid))
      as [[|]|e]; try discriminate.
    rewrite saveReservations_cases in H.
    destruct quotaLeft; [|discriminate]. now injection H as <- _.
  - rewrite saveReservations_cases in H.
    destruct quotaLeft; [|discriminate]. now injection H as <- _.
Qed.

(** X11.  What a mutation saved is what the next session loads.  After a
    creation, update or deletion that returns, the loading effect run on the
    storage it left, with a readable apartments slot, puts exactly the
    resulting reservations in memory, raises no error and leaves the storage
    as it is, whether or not the storage still accepts writes. *)
Theorem reload_after_mutation (policy : IntervalPolicy) (now : N) (quotaLeft : bool)
    (draft : ReservationDraft) (rid : string) (updates : Updates.t)
    (st st' : HookState) (apts : list Apartment.t)
    (quotaReservations quotaApartments : bool) :
  (exists r, addReservation policy now quotaLeft draft st = (st', Normal r))
  \/ (exists r, updateReservation policy quotaLeft rid updates st = (st', Normal r))
  \/ (exists v, deleteReservation quotaLeft rid st = (st', Normal v)) ->
  loadEffect quotaReservations quotaApartments (storageOf st' (Json apts))
  = {| loaded := {| reservations := reservations st'; apartments := apts;
                    error := None; stored := Some (reservations st') |};
       loading := false;
       storage := storageOf st' (Json apts) |}.
Proof.
  intros H. apply normal_return_is_stored in H. rewrite H.
  reflexivity.
Qed.

Lemma reload_after_mutation_seeded :
  reservations
    (loaded (loadEffect false false
               (storageOf (fst (addReservation SortEndpoints 1737000000000 true
                                  februaryA seeded))
                  (Json defaultApartments))))
  = (defaultReservations
       ++ [mkReservation "1737000000000" (withColor februaryA "#3B82F6")])%list.
Proof.
  assert (Hadd : addReservation SortEndpoints 1737000000000 true februaryA seeded
              = (fst (addReservation SortEndpoints 1737000000000 true februaryA seeded),
                 Normal (mkReservation "1737000000000" (withColor februaryA "#3B82F6"))))
    by (vm_compute; reflexivity).
  rewrite (reload_after_mutation SortEndpoints 1737000000000 true februaryA ""
             Updates.empty seeded _ defaultApartments false false
             (or_introl (ex_intro _ _ Hadd))).
  reflexivity.
Defined.

(** ** The calendar grid *)

Lemma filterC_total {A} (f : A -> completion bool) (g : A -> bool) (l : list A) :
  (forall x, In x l -> f x = Normal (g x)) -> filterC f l = Normal (filter g l).
Proof.
  induction l as [|x t IH]; simpl; intros H; [reflexivity|].
  rewrite (H x (or_introl eq_refl)), IH by (intros y Hy; apply H; now right).
  reflexivity.
Qed.

(** X12.  No day shows two reservations of one apartment.  In a store whose
    reservations have [startDate <= endDate] and that satisfies the
    no-overlap invariant, [getReservationsForDate] does not throw, returns
    exactly the stored reservations whose closed interval contains the day,
    in stored order, and any two different ones among them belong to
    different apartments. *)
Theorem one_reservation_per_apartment_per_day (policy : IntervalPolicy)
    (date : Day) (rs : list Reservation) :
  (forall r, In r rs -> wellFormed r) ->
  NoOverlap rs ->
  getReservationsForDate policy date rs
  = Normal (filter (fun r : Reservation =>
                      (startDate r <=? date) && (date <=? endDate r)) rs)
  /\ forall shown, getReservationsForDate policy date rs = Normal shown ->
       (forall r, In r shown <-> In r rs /\ startDate r <= date <= endDate r)
       /\ (forall a b, In a shown -> In b shown -> a <> b ->
             apartment a <> apartment b).
Proof.
  intros Hwf Hinv.
  assert (Hrun : getReservationsForDate policy date rs
                 = Normal (filter (fun r : Reservation =>
                                     (startDate r <=? date) && (date <=? endDate r)) rs)).
  { unfold getReservationsForDate. apply filterC_total.
    intros r Hr. unfold parseISO. apply isWithinInterval_ordered. now apply Hwf. }
  split; [exact Hrun|].
  intros shown Hshown. rewrite Hrun in Hshown. injection Hshown as <-.
  assert (Hin : forall r, In r (filter (fun r : Reservation =>
                    (startDate r <=? date) && (date <=? endDate r)) rs)
                  <-> In r rs /\ startDate r <= date <= endDate r).
  { intros r. rewrite filter_In, andb_true_iff, !Z.leb_le. tauto. }
  split; [exact Hin|].
  intros a b Ha Hb Hne Hap. apply Hin in Ha, Hb.
  destruct Ha as [Ha Hda], Hb as [Hb Hdb].
  specialize (Hinv a b Ha Hb Hne Hap).
  unfold overlap, intervalsOverlap in Hinv.
  apply andb_false_iff in Hinv. rewrite !Z.leb_gt in Hinv. lia.
Qed.

Lemma one_reservation_per_apartment_per_day_seeded :
  getReservationsForDate RejectInverted (daysFromCivil 2025 1 19) defaultReservations
  = Normal [martin;
            mkReservation "2"
              (mkDraft "Appartement B" None (daysFromCivil 2025 1 18)
                 (daysFromCivil 2025 1 25) (Some "Séjour d'affaires") (Some "#10B981"))].
Proof.
  rewrite (proj1 (one_reservation_per_apartment_per_day RejectInverted
                    (daysFromCivil 2025 1 19) defaultReservations
                    (fun r Hr => Z.lt_le_incl _ _ (AllOrdered_defaultReservations r Hr))
                    NoOverlap_defaultReservations)).
  reflexivity.
Defined.

(** ** Sequences of gestures *)

Lemma handleAll_cons (policy : IntervalPolicy) (g : Gesture) (gs : list Gesture)
    (app : App) :
  handleAll policy (g :: gs) app = handleAll policy gs (fst (handle policy g app)).
Proof. reflexivity. Qed.

Lemma handleAll_app (policy : IntervalPolicy) (gs gs' : list Gesture) (app : App) :
  handleAll policy (gs ++ gs') app = handleAll policy gs' (handleAll policy gs app).
Proof.
  revert app. induction gs as [|g t IH]; intros app; simpl; [reflexivity|apply IH].
Qed.

Lemma moves_while_dragging (policy : IntervalPolicy) (days : list Day) (D : Day)
    (h : HookState) (sel : option Day * option Day) (selecting : bool)
    (ds : DragState) :
  handleAll policy (map PointerEntered (days ++ [D]))
    {| hook := h;
       calendar := {| selectedRange := sel; isSelecting := selecting;
                      dragState := Some ds; isDragging := true |} |}
  = {| hook := h;
       calendar :=
         {| selectedRange := sel; isSelecting := selecting;
            dragState :=
              Some {| reservationId := reservationId ds;
                      originalReservation := originalReservation ds;
                      isActive := true;
                      newStartDate := Some D;
                      newEndDate :=
                        Some (D + (endDate (originalReservation ds)
                                   - startDate (originalReservation ds))) |};
            isDragging := true |} |}.
Proof.
  revert ds. induction days as [|d t IH]; intros ds; simpl.
  - reflexivity.
  - unfold setCalendar, setDragState. cbn [hook calendar selectedRange isSelecting isDragging].
    rewrite IH. reflexivity.
Qed.

Lemma moves_after_release (policy : IntervalPolicy) (days : list Day) (app : App) :
  isDragging (calendar app) = false ->
  handleAll policy (map PointerEntered days) app = app.
Proof.
  intros H. induction days as [|d t IH]; simpl; [reflexivity|].
  unfold handleMouseMove. rewrite H. simpl. exact IH.
Qed.

(** X13.  The proposal follows the pointer and never stretches.  After a
    press on [R] and any number of pointer moves ending on day [D], the
    machine previews [D, D + (R.endDate - R.startDate)], whatever the days
    passed on the way; once the pointer is released, further pointer moves
    change nothing.  The store is the same throughout. *)
Theorem proposal_follows_pointer (policy : IntervalPolicy) (app : App)
    (R : Reservation) (days : list Day) (D : Day) (later : list Day) :
  let dragged :=
    handleAll policy (ReservationPressed R :: map PointerEntered (days ++ [D])) app in
  let released :=
    handleAll policy (PointerReleased :: map PointerEntered later) dragged in
  dragPhase (calendar dragged)
  = Previewing (id R) R D (D + (endDate R - startDate R))
  /\ dragPhase (calendar released) = dragPhase (calendar dragged)
  /\ hook dragged = hook app
  /\ hook released = hook app.
Proof.
  cbv zeta. destruct app as [h [sel selecting ds0 dragging]].
  rewrite (handleAll_cons policy (ReservationPressed R)).
  unfold handle, handleReservationMouseDown, setCalendar, setIsDragging, setDragState.
  cbn [fst calendar hook selectedRange isSelecting dragState isDragging].
  rewrite moves_while_dragging.
  rewrite (handleAll_cons policy PointerReleased).
  unfold handle, handleMouseUp, setCalendar, setIsDragging.
  cbn [fst calendar hook selectedRange isSelecting dragState isDragging
       reservationId originalReservation].
  rewrite moves_after_release by reflexivity.
  repeat split.
Qed.

Lemma handleSaveDrag_calendar (policy : IntervalPolicy) (quotaLeft : bool) (app : App) :
  calendar (fst (fst (handleSaveDrag policy quotaLeft app))) = calendar app
  \/ calendar (fst (fst (handleSaveDrag policy quotaLeft app)))
     = setDragState (calendar app) None.
Proof.
  unfold handleSaveDrag.
  destruct (dragState (calendar app)) as [ds|]; [|now left].
  destruct (newStartDate ds) as [s|]; [|now left].
  destruct (newEndDate ds) as [e|]; [|now left].
  destruct (checkConflict policy _ _ _) as [[|]|x]; [now left| |now left].
  destruct (handleReservationUpdate policy quotaLeft _ _ _). now right.
Qed.

Lemma coherent_step (policy : IntervalPolicy) (g : Gesture) (app : App) :
  dragCoherent (calendar app) /\ selectionCoherent (calendar app) ->
  dragCoherent (calendar (fst (handle policy g app)))
  /\ selectionCoherent (calendar (fst (handle policy g app))).
Proof.
  intros [Hd Hs]. destruct app as [h [sel selecting ds dragging]].
  unfold dragCoherent, selectionCoherent in *. simpl in Hd, Hs.
  destruct g; simpl.
  - unfold handleDateClick, dragActive. simpl.
    destruct (match ds with Some d => isActive d | None => false end);
      [simpl; auto|].
    destruct selecting; simpl;
      [destruct Hs as (anchor & ->); simpl; auto|split; [exact Hd|eauto]].
  - auto.
  - unfold handleReservationDoubleClick, dragActive. simpl.
    destruct (match ds with Some d => isActive d | None => false end); simpl; auto.
  - split; [|exact Hs]. split; [reflexivity|]. left. auto.
  - unfold handleMouseMove. simpl.
    destruct dragging; simpl; [|auto].
    destruct ds as [d|]; simpl; [|auto].
    split; [|exact Hs]. destruct Hd as [Hid _]. split; [exact Hid|].
    right. split; [reflexivity|].
    eexists _, _. split; [reflexivity|]. split; [reflexivity|].
    unfold format, addDays, differenceInDays, parseISO. lia.
  - auto.
  - destruct (handleSaveDrag_calendar policy quotaLeft
                {| hook := h;
                   calendar := {| selectedRange := sel; isSelecting := selecting;
                                  dragState := ds; isDragging := dragging |} |})
      as [-> | ->]; simpl; auto.
  - auto.
Qed.

Lemma coherent_handleAll (policy : IntervalPolicy) (gs : list Gesture) (app : App) :
  dragCoherent (calendar app) /\ selectionCoherent (calendar app) ->
  dragCoherent (calendar (handleAll policy gs app))
  /\ selectionCoherent (calendar (handleAll policy gs app)).
Proof.
  revert app. induction gs as [|g t IH]; intros app H; simpl; [exact H|].
  apply IH. now apply coherent_step.
Qed.

(** X14.  The two gesture machines never leave their states.  From the
    state the component mounts with, after any sequence of clicks, presses,
    pointer moves, releases, saves and cancels, and whatever goes on in the
    store: the drag state is [Idle], [Armed] or [Previewing], its id is the
    id of its origin and a proposal is as long as its origin; the selection
    is [Idle] or has its anchor, and its range never holds a second end. *)
Theorem gestures_stay_coherent (policy : IntervalPolicy) (gs : list Gesture)
    (h : HookState) :
  let c := calendar (handleAll policy gs {| hook := h; calendar := mountedCalendar |}) in
  dragCoherent c
  /\ selectionCoherent c
  /\ dragPhase c <> Irregular
  /\ selectionPhase c <> AnchorMissing
  /\ snd (selectedRange c) = None.
Proof.
  cbv zeta.
  destruct (coherent_handleAll policy gs {| hook := h; calendar := mountedCalendar |})
    as [Hd Hs]; [split; exact I || reflexivity|].
  split; [exact Hd|]. split; [exact Hs|].
  unfold dragCoherent in Hd. unfold selectionCoherent in Hs.
  unfold dragPhase, selectionPhase.
  set (c := calendar (handleAll policy gs {| hook := h; calendar := mountedCalendar |})) in *.
  split; [|split].
  - destruct (dragState c) as [ds|]; [|discriminate].
    destruct Hd as [_ [(-> & -> & ->)|(-> & s & e & -> & -> & _)]]; discriminate.
  - destruct (isSelecting c); [|discriminate].
    destruct Hs as (anchor & ->). discriminate.
  - destruct (isSelecting c); [destruct Hs as (anchor & ->)|rewrite Hs]; reflexivity.
Qed.

(** X15.  Only the save button of a drag reaches the store.  A sequence of
    gestures without a click on that button leaves the whole hook state as
    it was, whatever selection and drag it goes through. *)
Theorem gestures_without_save_keep_store (policy : IntervalPolicy)
    (gs : list Gesture) (app : App) :
  (forall quotaLeft, ~ In (SaveClicked quotaLeft) gs) ->
  hook (handleAll policy gs app) = hook app.
Proof.
  revert app. induction gs as [|g t IH]; intros app H; simpl; [reflexivity|].
  rewrite IH by (intros q Hq; apply (H q); now right).
  destruct g; simpl.
  - unfold handleDateClick.
    destruct (dragActive (calendar app)); [reflexivity|].
    destruct (negb (isSelecting (calendar app))); [reflexivity|].
    destruct (fst (selectedRange (calendar app))); reflexivity.
  - reflexivity.
  - unfold handleReservationDoubleClick.
    destruct (dragActive (calendar app)); reflexivity.
  - reflexivity.
  - unfold handleMouseMove.
    destruct (negb (isDragging (calendar app))); [reflexivity|].
    destruct (dragState (calendar app)); reflexivity.
  - reflexivity.
  - elim (H quotaLeft). now left.
  - reflexivity.
Qed.

Lemma gestures_without_save_keep_store_seeded :
  hook (handleAll SortEndpoints
          [DayClicked (daysFromCivil 2025 3 9); ReservationPressed martin;
           PointerEntered (daysFromCivil 2025 2 10); PointerReleased;
           DayClicked (daysFromCivil 2025 3 4); CancelClicked; SelectionCancelled]
          {| hook := seeded; calendar := mountedCalendar |})
  = seeded.
Proof.
  apply (gestures_without_save_keep_store SortEndpoints _
           {| hook := seeded; calendar := mountedCalendar |}).
  intros q H. simpl in H. intuition discriminate.
Defined.

(** X16.  [isDateInSelectedRange] never throws, whatever the state and the
    behaviour of date-fns on inverted intervals, since it orders the two
    ends itself.  In every state the component reaches from mount it marks
    exactly the anchor day while a selection is open and no day otherwise. *)
Theorem selection_marks_the_anchor (policy : IntervalPolicy) (date : Day) :
  (forall c, exists b, isDateInSelectedRange policy date c = Normal b)
  /\ (forall gs h,
        let c := calendar (handleAll policy gs
                             {| hook := h; calendar := mountedCalendar |}) in
        isDateInSelectedRange policy date c
        = Normal match selectionPhase c with
                 | AnchorSet anchor => date =? anchor
                 | _ => false
                 end).
Proof.
  split.
  - intros c. unfold isDateInSelectedRange.
    destruct (selectedRange c) as [[s|] [e|]]; eauto.
    rewrite isWithinInterval_ordered; [eauto|].
    destruct (Z.leb_spec s e); lia.
  - intros gs h. cbv zeta.
    destruct (coherent_handleAll policy gs {| hook := h; calendar := mountedCalendar |})
      as [_ Hs]; [split; exact I || reflexivity|].
    unfold selectionCoherent in Hs. unfold isDateInSelectedRange, selectionPhase.
    destruct (isSelecting _).
    + destruct Hs as (anchor & ->). reflexivity.
    + rewrite Hs. reflexivity.
Qed.

(** X17.  What the grid draws for a dragged reservation.  In every state
    the component reaches from mount, [getDraggedReservation] yields
    something only during a preview and only for the dragged id: the origin
    with exactly the proposed dates and all its other fields. *)
Theorem dragged_reservation_is_the_proposal (policy : IntervalPolicy)
    (gs : list Gesture) (h : HookState) (rid : string) :
  let c := calendar (handleAll policy gs {| hook := h; calendar := mountedCalendar |}) in
  getDraggedReservation rid c
  = match dragPhase c with
    | Previewing dragged origin proposedStart proposedEnd =>
        if String.eqb dragged rid
        then Some (mkReservation (id origin)
                     (mkDraft (apartment origin) (clientName origin)
                        proposedStart proposedEnd (notes origin) (color origin)))
        else None
    | _ => None
    end.
Proof.
  cbv zeta.
  destruct (coherent_handleAll policy gs {| hook := h; calendar := mountedCalendar |})
    as [Hd _]; [split; exact I || reflexivity|].
  unfold dragCoherent in Hd. unfold getDraggedReservation, dragPhase.
  destruct (dragState _) as [ds|]; [|reflexivity].
  destruct Hd as [_ [(-> & -> & ->)|(-> & s & e & -> & -> & _)]].
  - now rewrite orb_true_r.
  - rewrite orb_false_r. destruct (String.eqb (reservationId ds) rid); reflexivity.
Qed.

(** ** The modal *)







(** ** The page as a whole *)




















(** ** The list of reservations *)

Lemma filterA_total {A} (f : A -> attempt bool) (g : A -> bool) (l : list A) :
  (forall x, In x l -> f x = Done (g x)) -> filterA f l = Done (filter g l).
Proof.
  induction l as [|x t IH]; simpl; intros H; [reflexivity|].
  rewrite (H x (or_introl eq_refl)), IH by (intros y Hy; apply H; now right).
  reflexivity.
Qed.

Lemma passes_by_dates (toLowerCase : string -> string) (policy : IntervalPolicy)
    (wanted : option string) (filterStart filterEnd : Day) (r : Reservation) :
  filterStart <= filterEnd -> wellFormed r ->
  passes toLowerCase policy
    (Filters.mk wanted None (Some filterStart) (Some filterEnd)) r
  = Done (negb (otherApartment (Filters.mk wanted None (Some filterStart) (Some filterEnd)) r)
          && intervalsOverlap (startDate r) (endDate r) filterStart filterEnd).
Proof.
  intros Hf Hr. unfold passes.
  destruct (otherApartment _ r); [reflexivity|].
  unfold otherClient, outsideRange, parseISO. simpl.
  unfold wellFormed in Hr.
  rewrite !isWithinInterval_ordered by assumption.
  unfold orElse, intervalsOverlap. simpl.
  leb_cases; simpl; try reflexivity; lia.
Qed.

(** X21.  The date filter of the list is the overlap of conflict detection.
    With both filter dates given in order, over reservations with
    [startDate <= endDate], the list keeps exactly the reservations whose
    closed interval meets the filter's, narrowed to the chosen apartment if
    one is chosen.  With only one of the two dates given the dates filter
    nothing: without other criteria every reservation is kept, whatever its
    dates and without any exception. *)
Theorem list_filters_by_overlap (toLowerCase : string -> string)
    (policy : IntervalPolicy) (rs : list Reservation) (wanted : option string)
    (filterStart filterEnd : Day) :
  (filterStart <= filterEnd ->
   (forall r, In r rs -> wellFormed r) ->
   filterA (passes toLowerCase policy
              (Filters.mk wanted None (Some filterStart) (Some filterEnd))) rs
   = Done (filter (fun r : Reservation =>
                     match truthy wanted with
                     | Some a => String.eqb (apartment r) a
                     | None => true
                     end
                     && intervalsOverlap (startDate r) (endDate r) filterStart filterEnd)
             rs))
  /\ filterA (passes toLowerCase policy (Filters.mk None None (Some filterStart) None)) rs
     = Done rs
  /\ filterA (passes toLowerCase policy (Filters.mk None None None (Some filterEnd))) rs
     = Done rs
  /\ filterA (passes toLowerCase policy Filters.none) rs = Done rs.
Proof.
  assert (Hall : forall f, (forall r, passes toLowerCase policy f r = Done true) ->
                           filterA (passes toLowerCase policy f) rs = Done rs).
  { intros f Hf. rewrite (filterA_total _ (fun _ => true)) by (intros; apply Hf).
    f_equal. induction rs as [|a t IH]; simpl; [reflexivity|now rewrite IH]. }
  split; [|split; [|split]]; try (apply Hall; reflexivity).
  intros Hf Hwf. apply filterA_total. intros r Hr.
  rewrite passes_by_dates by auto. unfold otherApartment. simpl.
  destruct (truthy wanted); [now rewrite negb_involutive|reflexivity].
Qed.

Lemma list_filters_by_overlap_seeded :
  filterA (passes (fun s => s) RejectInverted
             (Filters.mk None None (Some (daysFromCivil 2025 1 20))
                (Some (daysFromCivil 2025 1 21))))
    defaultReservations
  = Done [martin;
          mkReservation "2"
            (mkDraft "Appartement B" None (daysFromCivil 2025 1 18)
               (daysFromCivil 2025 1 25) (Some "Séjour d'affaires") (Some "#10B981"))].
Proof.
  rewrite (proj1 (list_filters_by_overlap (fun s => s) RejectInverted
                    defaultReservations None (daysFromCivil 2025 1 20)
                    (daysFromCivil 2025 1 21)));
    [reflexivity|vm_compute; discriminate|].
  intros r Hr. apply Z.lt_le_incl. now apply AllOrdered_defaultReservations.
Defined.

Section StableSort.
Variable cmp : Reservation -> Reservation -> attempt Z.
Variable c : Reservation -> Reservation -> Z.
Hypothesis cmp_pure : forall a b, cmp a b = Done (c a b).

Lemma insertSorted_perm (x : Reservation) (l : list Reservation) :
  exists l', insertSorted cmp x l = Done l' /\ Permutation (x :: l) l'.
Proof.
  induction l as [|y t (t' & Ht & Hp)]; simpl.
  - eauto.
  - rewrite cmp_pure. simpl. destruct (c x y <=? 0); [eauto|].
    rewrite Ht. simpl. eexists. split; [reflexivity|].
    rewrite perm_swap. now constructor.
Qed.

Lemma sort_perm (l : list Reservation) :
  exists l', sort cmp l = Done l' /\ Permutation l l'.
Proof.
  induction l as [|x t (t' & Ht & Hp)]; simpl; [eauto|].
  rewrite Ht. simpl. destruct (insertSorted_perm x t') as (l' & Hl & Hp').
  exists l'. split; [exact Hl|]. rewrite <- Hp'. now constructor.
Qed.

Hypothesis c_total : forall a b, 0 < c a b -> c b a <= 0.

Lemma insertSorted_sorted (x : Reservation) (l l' : list Reservation) :
  Sorted (fun a b => c a b <= 0) l -> insertSorted cmp x l = Done l' ->
  Sorted (fun a b => c a b <= 0) l'.
Proof.
  revert l'. induction l as [|y t IH]; simpl; intros l' Hs H.
  - injection H as <-. auto.
  - rewrite cmp_pure in H. simpl in H. destruct (Z.leb_spec (c x y) 0).
    + injection H as <-. auto.
    + destruct (insertSorted cmp x t) as [t'|f] eqn:Ht; [|discriminate].
      simpl in H. injection H as <-.
      inversion Hs as [|? ? Hst Hhd]; subst.
      constructor; [now apply IH|].
      destruct t as [|z t0]; simpl in Ht.
      * injection Ht as <-. constructor. now apply c_total.
      * rewrite cmp_pure in Ht. simpl in Ht. destruct (c x z <=? 0).
        -- injection Ht as <-. constructor. now apply c_total.
        -- destruct (insertSorted cmp x t0); [|discriminate].
           simpl in Ht. injection Ht as <-. constructor.
           now inversion Hhd.
Qed.

Lemma sort_sorted (l l' : list Reservation) :
  sort cmp l = Done l' -> Sorted (fun a b => c a b <= 0) l'.
Proof.
  revert l'. induction l as [|x t IH]; simpl; intros l' H.
  - injection H as <-. constructor.
  - destruct (sort cmp t) as [t'|f]; [|discriminate]. simpl in H.
    eapply insertSorted_sorted; [|exact H]. now apply IH.
Qed.
End StableSort.

(** X22.  The list shows what passed the filters, each reservation once,
    in the chosen order of start dates.  Whenever filtering succeeds, sorting
    by start date succeeds, its result is a rearrangement of the kept
    reservations, and start dates never decrease along it when the order is
    ascending and never increase when it is descending. *)
Theorem list_sorted_by_start_date (toLowerCase : string -> string)
    (stringLt : string -> string -> bool) (policy : IntervalPolicy)
    (rs kept : list Reservation) (filters : Filters.t) (sortOrder : SortOrder) :
  filterA (passes toLowerCase policy filters) rs = Done kept ->
  exists shown,
    filteredAndSortedReservations toLowerCase stringLt policy rs filters
      ByStartDate sortOrder = Done shown
    /\ Permutation kept shown
    /\ StronglySorted
         (fun a b : Reservation =>
            match sortOrder with
            | Asc => startDate a <= startDate b
            | Desc => startDate b <= startDate a
            end) shown.
Proof.
  intros Hkept. unfold filteredAndSortedReservations. rewrite Hkept. simpl.
  set (c := fun a b : Reservation =>
              if startDate a <? startDate b
              then match sortOrder with Asc => -1 | Desc => 1 end
              else if startDate b <? startDate a
                   then match sortOrder with Asc => 1 | Desc => -1 end
                   else 0).
  assert (Hpure : forall a b,
             comparator toLowerCase stringLt ByStartDate sortOrder a b = Done (c a b)).
  { intros a b. unfold comparator, keysOrdered, parseISO, c. simpl.
    destruct (startDate a <? startDate b); [reflexivity|].
    destruct (startDate b <? startDate a); reflexivity. }
  destruct (sort_perm _ c Hpure kept) as (shown & Hsort & Hperm).
  exists shown. split; [exact Hsort|]. split; [exact Hperm|].
  assert (Htotal : forall a b, 0 < c a b -> c b a <= 0).
  { intros a b. unfold c.
    destruct (Z.ltb_spec (startDate a) (startDate b)),
             (Z.ltb_spec (startDate b) (startDate a)), sortOrder; lia. }
  pose proof (sort_sorted _ c Hpure Htotal kept shown Hsort) as Hs.
  apply Sorted_StronglySorted.
  - intros x y z. destruct sortOrder; lia.
  - eapply Sorted_ind with (P := fun l => Sorted _ l); [constructor| |exact Hs].
    intros a l _ IH Hhd. constructor; [exact IH|].
    destruct Hhd as [|b l' Hab]; constructor.
    unfold c in Hab.
    destruct (Z.ltb_spec (startDate a) (startDate b)),
             (Z.ltb_spec (startDate b) (startDate a)), sortOrder; lia.
Qed.

Lemma list_sorted_by_start_date_seeded :
  exists shown,
    filteredAndSortedReservations (fun s => s) String.ltb SortEndpoints
      (rev defaultReservations) Filters.none ByStartDate Asc = Done shown
    /\ Permutation (rev defaultReservations) shown
    /\ StronglySorted (fun a b : Reservation => startDate a <= startDate b) shown.
Proof.
  apply (list_sorted_by_start_date (fun s => s) String.ltb SortEndpoints
           (rev defaultReservations) (rev defaultReservations) Filters.none Asc).
  reflexivity.
Defined.
